(** * zipline/pipeline/data/dataset.py: columns, bound columns and the
      DataSet metaclass.

    Shallow embedding of [Column], [_BoundColumnDescr], [BoundColumn] and
    [DataSetMeta] together with the part of Python's class machinery they
    run on (class objects in a store, method resolution order, attribute
    lookup and assignment with descriptors).

    The classes of the store are [object] and the classes [DataSetMeta]
    creates.  Attribute names are ordinary identifiers: the slots [type]
    itself keeps on a class ([__name__], [__bases__], ...) are read from the
    class record and are not names a class body binds. *)

From Stdlib Require Import ZArith Lia Ascii String.
From stdpp Require Import base option list strings gmap sets relations.

Open Scope string_scope.

(** ** Python values *)

(** numpy dtypes a column can carry.  [Column.__init__] runs [ensure_dtype]
    on its argument first, so a column only ever holds a real dtype. *)
Inductive dtype : Set :=
  | bool_dtype
  | int32_dtype
  | int64_dtype
  | uint32_dtype
  | float32_dtype
  | float64_dtype
  | datetime64ns_dtype
  | object_dtype.

Global Instance dtype_eq_dec : EqDecision dtype.
Proof. solve_decision. Defined.

(** [dtype.name], which is also what [str(dtype)] prints for these. *)
Definition dtype_name (d : dtype) : string :=
  match d with
  | bool_dtype => "bool"
  | int32_dtype => "int32"
  | int64_dtype => "int64"
  | uint32_dtype => "uint32"
  | float32_dtype => "float32"
  | float64_dtype => "float64"
  | datetime64ns_dtype => "datetime64[ns]"
  | object_dtype => "object"
  end.

(** Plain Python objects: what a missing value or an ordinary class attribute
    can be.  They are compared the way a dictionary key is. *)
Inductive pyval : Set :=
  | VNone
  | VBool (b : bool)
  | VInt (z : Z)
  | VNaN
  | VNaT
  | VStr (s : string)
  | VOpaque (tag : nat).

Global Instance pyval_eq_dec : EqDecision pyval.
Proof. solve_decision. Defined.

(** The [missing_value] argument: the [NotSpecified] sentinel or a value. *)
Inductive missing_arg : Set :=
  | NotSpecified
  | Given (v : pyval).

Global Instance missing_arg_eq_dec : EqDecision missing_arg.
Proof. solve_decision. Defined.

(** ** Exceptions and results *)

Inductive exn : Set :=
  | NoDefaultMissingValue (msg : string)
  | TypeError (msg : string)
  | AttributeError (msg : string).

(** What a call gives: a value, an exception, or no answer within the fuel
    it was allowed (attribute access can call itself without end, which
    Python stops with a [RecursionError]). *)
Inductive result (A : Type) : Type :=
  | Ok (a : A)
  | Raise (e : exn)
  | OutOfFuel.
Arguments Ok {A} a.
Arguments Raise {A} e.
Arguments OutOfFuel {A}.

Definition rbind {A B : Type} (r : result A) (k : A -> result B) : result B :=
  match r with
  | Ok a => k a
  | Raise e => Raise e
  | OutOfFuel => OutOfFuel
  end.

Notation "'do' x <- r ; k" := (rbind r (fun x => k))
  (at level 10, x name, r at level 100, k at level 200).

Definition is_ok {A : Type} (r : result A) : bool :=
  match r with Ok _ => true | _ => false end.

(** ** Strings *)

Definition nl : string := String "010"%char EmptyString.

(** [repr] of a field name: an identifier needs no escaping. *)
Definition repr_str (s : string) : string := "'" ++ s ++ "'".

Definition contains (needle hay : string) : Prop :=
  exists pre post : string, hay = pre ++ needle ++ post.

(** ** Column *)

Record Column : Set := mkColumn {
  col_dtype : dtype;
  col_missing_value : missing_arg
}.

Global Instance Column_eq_dec : EqDecision Column.
Proof. solve_decision. Defined.

(** ** The state of a _BoundColumnDescr *)

Record BoundColumnDescr : Set := mkDescr {
  descr_dtype : dtype;
  descr_missing_value : pyval;
  descr_name : string
}.

Global Instance BoundColumnDescr_eq_dec : EqDecision BoundColumnDescr.
Proof. solve_decision. Defined.

Definition no_missing_value_message (d : dtype) (name : string) : string :=
  "Failed to create Column with name " ++ repr_str name ++ " and"
  ++ " dtype " ++ dtype_name d ++ " because no missing_value was provided"
  ++ nl ++ nl
  ++ "Columns with dtype " ++ dtype_name d ++ " require a missing_value."
  ++ nl
  ++ "Please pass missing_value to Column() or use a different"
  ++ " dtype.".

(** ** Terms and bound columns *)

(** Classes are Python objects with an identity; a class is named by its
    position in the class store. *)
Abbreviation type_id := nat (only parsing).

(** Modelled from the spec: the state [Term._init] of [zipline.pipeline.term]
    keeps for a term.  [BoundColumn.__new__] passes [domain], [dtype] and
    [missing_value] up to [Term.__new__]; the term exposes them unchanged. *)
Record Term_ (O : Type) : Type := mkTerm {
  term_domain : O;
  term_dtype : dtype;
  term_missing_value : pyval
}.
Arguments mkTerm {O}.
Arguments term_domain {O}.
Arguments term_dtype {O}.
Arguments term_missing_value {O}.

(** An instance of [BoundColumn]: the term state plus what
    [BoundColumn._init] stores in [_dataset] and [_name]. *)
Record BoundColumn_ (O : Type) : Type := mkBound {
  bc_term : Term_ O;
  bc_dataset : type_id;
  bc_name : string
}.
Arguments mkBound {O}.
Arguments bc_term {O}.
Arguments bc_dataset {O}.
Arguments bc_name {O}.

(** Every object the module handles.  A frozenset of objects is written as
    the list of the elements it was built from. *)
#[warnings="-register-all"]
Inductive pyobj : Type :=
  | OVal (v : pyval)
  | OColumn (c : Column)
  | ODescr (d : BoundColumnDescr)
  | ONames (s : gset string)
  | OBound (b : BoundColumn_ pyobj)
  | OFrozenset (l : list pyobj).

Definition BoundColumn : Type := BoundColumn_ pyobj.
Definition Term : Type := Term_ pyobj.

(** The class attributes of [BoundColumn]. *)
Inductive mask_expr : Set := AssetExists.
Definition mask : mask_expr := AssetExists.
Definition extra_input_rows : Z := 0.
Definition inputs : list pyobj := [].

(** Read on an instance, the three resolve to the class attributes. *)
Definition mask_of (b : BoundColumn) : mask_expr := mask.
Definition extra_input_rows_of (b : BoundColumn) : Z := extra_input_rows.
Definition inputs_of (b : BoundColumn) : list pyobj := inputs.

(** The properties [dtype], [missing_value], [domain], [dataset], [name]. *)
Definition dtype_of (b : BoundColumn) : dtype := term_dtype (bc_term b).
Definition missing_value (b : BoundColumn) : pyval :=
  term_missing_value (bc_term b).
Definition domain (b : BoundColumn) : pyobj := term_domain (bc_term b).
Definition dataset (b : BoundColumn) : type_id := bc_dataset b.
Definition name (b : BoundColumn) : string := bc_name b.

(** ** Classes and the class store *)

Record pyclass : Type := mkClass {
  cls_name : string;            (* __name__ *)
  cls_bases : list type_id;     (* __bases__ *)
  cls_mro : list type_id;       (* __mro__ *)
  cls_meta : bool;              (* type(cls) is DataSetMeta *)
  cls_dict : gmap string pyobj  (* __dict__ *)
}.

Abbreviation store := (list pyclass) (only parsing).

Definition object_id : type_id := 0.
Definition object_class : pyclass := mkClass "object" [] [object_id] false ∅.
Definition initial_store : store := [object_class].

(** ** The numpy tables the module imports

    [default_missing_value_for_dtype] and the cast check live in
    [zipline.utils.numpy_utils] and numpy; the development is parametric in
    both. *)
Section Dataset.

Variable default_missing_value_for_dtype : dtype -> option pyval.
Variable can_cast : pyval -> dtype -> bool.

(** Modelled from the spec: [Term.validate_dtype] of [zipline.pipeline.term].
    An explicit missing value is checked for compatibility with the dtype;
    without one the default of the dtype is looked up, and a dtype with no
    default raises [NoDefaultMissingValue].  The pair handed back is the
    dtype and the resolved missing value. *)
Definition validate_dtype (termname : string) (d : dtype) (mv : missing_arg)
  : result (dtype * pyval) :=
  match mv with
  | Given v =>
      if can_cast v d then Ok (d, v)
      else Raise (TypeError
             ("Missing value is not a valid choice for term " ++ termname
              ++ " with dtype " ++ dtype_name d))
  | NotSpecified =>
      match default_missing_value_for_dtype d with
      | Some v => Ok (d, v)
      | None => Raise (NoDefaultMissingValue
                         ("No default value found for " ++ dtype_name d))
      end
  end.

(** [_BoundColumnDescr.__init__]: validate, re-raising a missing default
    with a message that names the column. *)
Definition BoundColumnDescr_init (d : dtype) (mv : missing_arg) (name : string)
  : result BoundColumnDescr :=
  match validate_dtype ("Column(name=" ++ repr_str name ++ ")") d mv with
  | Ok (d', mv') => Ok (mkDescr d' mv' name)
  | Raise (NoDefaultMissingValue _) =>
      Raise (NoDefaultMissingValue (no_missing_value_message d name))
  | Raise e => Raise e
  | OutOfFuel => OutOfFuel
  end.

(** [Column.bind] *)
Definition bind (c : Column) (name : string) : result BoundColumnDescr :=
  BoundColumnDescr_init (col_dtype c) (col_missing_value c) name.

(** *** Method resolution order (C3), as [type.__new__] computes it *)

Definition in_tail (x : type_id) (l : list type_id) : bool :=
  bool_decide (x ∈ tail l).

Definition good_head (seqs : list (list type_id)) (x : type_id) : bool :=
  forallb (fun l => negb (in_tail x l)) seqs.

Fixpoint find_head (cands all : list (list type_id)) : option type_id :=
  match cands with
  | [] => None
  | [] :: rest => find_head rest all
  | (x :: _) :: rest =>
      if good_head all x then Some x else find_head rest all
  end.

Definition drop_head (x : type_id) (l : list type_id) : list type_id :=
  match l with
  | y :: t => if decide (x = y) then t else l
  | [] => []
  end.

Definition nonempty (l : list type_id) : bool :=
  match l with [] => false | _ => true end.

Fixpoint c3_merge (fuel : nat) (seqs : list (list type_id))
  : option (list type_id) :=
  match List.filter nonempty seqs with
  | [] => Some []
  | live =>
      match fuel with
      | 0 => None
      | S n =>
          match find_head live live with
          | None => None
          | Some x => cons x <$> c3_merge n (map (drop_head x) live)
          end
      end
  end.

Definition total_length (seqs : list (list type_id)) : nat :=
  foldr (fun l n => length l + n) 0 seqs.

Definition bases_or_object (bases : list type_id) : list type_id :=
  match bases with [] => [object_id] | _ => bases end.

(** [type.__new__(mcls, name, bases, dict_)] for [mcls = DataSetMeta]: the
    new class object is appended to the store.  An empty [bases] means
    [(object,)]. *)
Definition type_new (st : store) (name : string) (bases : list type_id)
    (dict_ : gmap string pyobj) : result (type_id * store) :=
  let bases' := bases_or_object bases in
  match mapM (fun b => cls_mro <$> st !! b) bases' with
  | None => Raise (TypeError "bases must be types")
  | Some mros =>
      let seqs := (mros ++ [bases'])%list in
      match c3_merge (total_length seqs) seqs with
      | None =>
          Raise (TypeError
            "Cannot create a consistent method resolution order (MRO)")
      | Some m =>
          let newtype := length st in
          Ok (newtype,
              (st ++ [mkClass name bases' (newtype :: m) true dict_])%list)
      end
  end.

(** Look [name] up in the [__dict__] of the classes of an MRO, in order. *)
Fixpoint mro_lookup (st : store) (mro : list type_id) (name : string)
  : option pyobj :=
  match mro with
  | [] => None
  | c :: rest =>
      match st !! c ≫= (fun k => cls_dict k !! name) with
      | Some o => Some o
      | None => mro_lookup st rest name
      end
  end.

(** The object [name] resolves to on class [cls], before descriptors run. *)
Definition class_attr (st : store) (cls : type_id) (name : string)
  : option pyobj :=
  st !! cls ≫= (fun k => mro_lookup st (cls_mro k) name).

(** ** BoundColumn *)

(** Modelled from the spec: [Term.__new__] of [zipline.pipeline.term] builds
    the term from the arguments it is given and validates nothing. *)
Definition Term_new (dom : pyobj) (d : dtype) (mv : pyval) : result Term :=
  Ok (mkTerm dom d mv).

(** [BoundColumn.__new__]; [ga] is attribute access on a class, used for
    [dataset.domain]. *)
Definition BoundColumn_new (ga : type_id -> string -> result pyobj)
    (d : dtype) (mv : pyval) (dataset : type_id) (name : string)
  : result BoundColumn :=
  do dom <- ga dataset "domain";
  do t <- Term_new dom d mv;
  Ok (mkBound t dataset name).

Inductive term_class : Set := BoundColumn_cls.

(** Modelled from the spec: [Term.static_identity] of
    [zipline.pipeline.term], the uniqueness key of a term: its class and the
    arguments [Term.__new__] received. *)
Definition Term_static_identity (cls : term_class) (dom : pyobj) (d : dtype)
    (mv : pyval) : term_class * pyobj * dtype * pyval :=
  (cls, dom, d, mv).

(** [BoundColumn.static_identity] *)
Definition static_identity (cls : term_class) (dataset : type_id)
    (name : string) (dom : pyobj) (d : dtype) (mv : pyval)
  : (term_class * pyobj * dtype * pyval) * type_id * string :=
  (Term_static_identity cls dom d mv, dataset, name).

(** The key under which a constructed bound column is known. *)
Definition identity (b : BoundColumn)
  : (term_class * pyobj * dtype * pyval) * type_id * string :=
  static_identity BoundColumn_cls (dataset b) (name b) (domain b) (dtype_of b)
    (missing_value b).

(** [_BoundColumnDescr.__get__(instance, owner)] *)
Definition BoundColumnDescr_get (ga : type_id -> string -> result pyobj)
    (self : BoundColumnDescr) (owner : type_id) : result BoundColumn :=
  BoundColumn_new ga (descr_dtype self) (descr_missing_value self) owner
    (descr_name self).

Fixpoint rmapM {A B : Type} (f : A -> result B) (l : list A)
  : result (list B) :=
  match l with
  | [] => Ok []
  | a :: rest => do b <- f a; do bs <- rmapM f rest; Ok (b :: bs)
  end.

(** The [columns] property of [DataSetMeta]. *)
Definition DataSetMeta_columns (ga : type_id -> string -> result pyobj)
    (self : type_id) : result pyobj :=
  do names <- ga self "_column_names";
  match names with
  | ONames s =>
      do l <- rmapM (fun colname => ga self colname) (elements s);
      Ok (OFrozenset l)
  | _ => Raise (TypeError "object is not iterable")
  end.

Definition no_attribute (cls name : string) : exn :=
  AttributeError
    ("type object '" ++ cls ++ "' has no attribute '" ++ name ++ "'").

(** [getattr(cls, name)] on a class of the store.  A data descriptor of the
    metaclass ([columns]) comes first, then the classes of the MRO; an
    object found there that has [__get__] is called with [cls] as owner.
    Each nested attribute access costs one unit of [fuel]. *)
Fixpoint getattr (fuel : nat) (st : store) (cls : type_id) (name : string)
  : result pyobj :=
  match fuel with
  | 0 => OutOfFuel
  | S n =>
      match st !! cls with
      | None => Raise (TypeError "not a class of the store")
      | Some k =>
          if cls_meta k && bool_decide (name = "columns") then
            DataSetMeta_columns (getattr n st) cls
          else
            match mro_lookup st (cls_mro k) name with
            | Some (ODescr d) =>
                do b <- BoundColumnDescr_get (getattr n st) d cls;
                Ok (OBound b)
            | Some o => Ok o
            | None => Raise (no_attribute (cls_name k) name)
            end
      end
  end.

(** [BoundColumn.qualname]: [dataset.__name__] is read from the class. *)
Definition qualname (st : store) (b : BoundColumn) : result string :=
  match st !! dataset b with
  | Some k => Ok (cls_name k ++ "." ++ name b)
  | None => Raise (TypeError "not a class of the store")
  end.

(** [BoundColumn.__repr__] *)
Definition repr (st : store) (b : BoundColumn) : result string :=
  do q <- qualname st b;
  Ok (q ++ "::" ++ dtype_name (dtype_of b)).

(** ** DataSetMeta *)

(** [getattr(base, '_column_names', ())].  Every class the metaclass made
    keeps a frozenset of names there and [object] has no such attribute, so
    no descriptor is involved in the lookup. *)
Definition base_column_names (st : store) (base : type_id)
  : result (gset string) :=
  match class_attr st base "_column_names" with
  | None => Ok ∅
  | Some (ONames s) => Ok s
  | Some _ => Raise (TypeError "object is not iterable")
  end.

(** The union of the inherited [_column_names], one set per base. *)
Definition inherited_column_names (st : store) (bases : list type_id)
  : result (gset string) :=
  do sets <- rmapM (base_column_names st) bases;
  Ok (⋃ sets).

(** [setattr(newtype, name, value)] on a class made by [DataSetMeta], [d]
    being its [__dict__].  Assignment looks the name up on the metaclass
    first: [columns] is a property without a setter there and refuses. *)
Definition class_setattr (d : gmap string pyobj) (name : string)
    (value : pyobj) : result (gmap string pyobj) :=
  if bool_decide (name = "columns")
  then Raise (AttributeError "can't set attribute")
  else Ok (<[name := value]> d).

(** The loop over [iteritems(dict_)]: [d] is the [__dict__] of the new class
    and [names] the working set [column_names]. *)
Fixpoint bind_columns (items : list (string * pyobj)) (d : gmap string pyobj)
    (names : gset string) : result (gmap string pyobj * gset string) :=
  match items with
  | [] => Ok (d, names)
  | (maybe_colname, OColumn maybe_column) :: rest =>
      do bound_column_descr <- bind maybe_column maybe_colname;
      do d' <- class_setattr d maybe_colname (ODescr bound_column_descr);
      bind_columns rest d' (names ∪ {[maybe_colname]})
  | _ :: rest => bind_columns rest d names
  end.

(** [DataSetMeta.__new__(mcls, name, bases, dict_)]: the identity of the new
    class and the store that holds it. *)
Definition DataSetMeta_new (st : store) (name : string)
    (bases : list type_id) (dict_ : gmap string pyobj)
  : result (type_id * store) :=
  do r <- type_new st name bases dict_;
  let '(newtype, st1) := r in
  do column_names <- inherited_column_names st1 bases;
  do r2 <- bind_columns (map_to_list dict_) dict_ column_names;
  let '(d, column_names') := r2 in
  match st1 !! newtype with
  | Some k =>
      let k' := mkClass (cls_name k) (cls_bases k) (cls_mro k) (cls_meta k)
                  (<["_column_names" := ONames column_names']> d) in
      Ok (newtype, <[newtype := k']> st1)
  | None => Raise (TypeError "not a class of the store")
  end.

(** [class DataSet(with_metaclass(DataSetMeta, object)): domain = None] *)
Definition DataSet_dict : gmap string pyobj := {[ "domain" := OVal VNone ]}.

Definition DataSet_module : result (type_id * store) :=
  DataSetMeta_new initial_store "DataSet" [object_id] DataSet_dict.

(** The stores a program can build: the module's own, extended by class
    definitions. *)
Inductive reachable : store -> Prop :=
  | reachable_module DataSet st :
      DataSet_module = Ok (DataSet, st) -> reachable st
  | reachable_class st name bases dict_ newtype st' :
      reachable st ->
      DataSetMeta_new st name bases dict_ = Ok (newtype, st') ->
      reachable st'.

End Dataset.

(** ** A numpy instance and some classes to run the code on *)

(** A sample of the two tables: floats default to NaN, booleans to False and
    [int64] has no default missing value. *)
Definition sample_default (d : dtype) : option pyval :=
  match d with
  | bool_dtype => Some (VBool false)
  | float32_dtype | float64_dtype => Some VNaN
  | datetime64ns_dtype => Some VNaT
  | object_dtype => Some VNone
  | int32_dtype | int64_dtype | uint32_dtype => None
  end.

Definition sample_can_cast (v : pyval) (d : dtype) : bool :=
  match v, d with
  | VNaN, (float32_dtype | float64_dtype) => true
  | VInt _, (int32_dtype | int64_dtype | uint32_dtype) => true
  | VInt _, (float32_dtype | float64_dtype) => true
  | VBool _, bool_dtype => true
  | VNaT, datetime64ns_dtype => true
  | _, object_dtype => true
  | _, _ => false
  end.

Definition new_class : store -> string -> list type_id -> gmap string pyobj
    -> result (type_id * store) :=
  DataSetMeta_new sample_default sample_can_cast.

Definition store_of (r : result (type_id * store)) : store :=
  match r with Ok (_, st) => st | _ => [] end.

Definition DataSet_id : type_id := 1.

(** [class PriceData(DataSet): price = Column(float64, missing_value=nan);
    volume = Column(int64, missing_value=0)] *)
Definition PriceData_dict : gmap string pyobj :=
  {[ "price" := OColumn (mkColumn float64_dtype (Given VNaN));
     "volume" := OColumn (mkColumn int64_dtype (Given (VInt 0))) ]}.

Definition store1 : store :=
  store_of (DataSet_module sample_default sample_can_cast).
Definition store2 : store :=
  store_of (new_class store1 "PriceData" [DataSet_id] PriceData_dict).
Definition PriceData_id : type_id := 2.

(** ** Field names, ancestors and the shape of a store *)

(** The field names of a class: what its [_column_names] holds. *)
Definition column_names (st : store) (c : type_id) : gset string :=
  match class_attr st c "_column_names" with
  | Some (ONames s) => s
  | _ => ∅
  end.

(** The names a class body declares: those bound to a [Column]. *)
Definition declared (dict_ : gmap string pyobj) (n : string) : Prop :=
  exists c, dict_ !! n = Some (OColumn c).

Definition is_base (st : store) (c b : type_id) : Prop :=
  exists k, st !! c = Some k /\ b ∈ cls_bases k.

(** [ancestor st c a]: [a] is a base of [c], or a base of a base, ... *)
Definition ancestor (st : store) : relation nat := tc (is_base st).

(** What every store built by the metaclass looks like. *)
Record wf_store (st : store) : Prop := mkWf {
  wf_object : st !! object_id = Some object_class;
  wf_DataSet : exists k,
    st !! DataSet_id = Some k /\ cls_mro k = [DataSet_id; object_id]
    /\ cls_dict k !! "domain" = Some (OVal VNone);
  wf_meta : forall c k, st !! c = Some k -> c <> object_id ->
    cls_meta k = true
    /\ exists s, cls_dict k !! "_column_names" = Some (ONames s);
  wf_mro : forall c k, st !! c = Some k ->
    exists rest, cls_mro k = c :: rest /\ Forall (fun x => x < c) rest
                 /\ NoDup rest;
  wf_bases : forall c k b, st !! c = Some k -> b ∈ cls_bases k ->
    b < c /\ column_names st b ⊆ column_names st c;
  wf_columns : forall c, "columns" ∉ column_names st c
}.

(** The class object [DataSet] as the module leaves it. *)
Definition DataSet_class : pyclass :=
  mkClass "DataSet" [object_id] [DataSet_id; object_id] true
    (<["_column_names" := ONames ∅]> DataSet_dict).

(** A schema type is a class that derives from [DataSet] and has not bound
    [domain] to a column. *)
Definition schema_type (st : store) (T : type_id) : Prop :=
  exists k, st !! T = Some k /\ DataSet_id ∈ cls_mro k
            /\ forall d, class_attr st T "domain" <> Some (ODescr d).

(** [g2] answers whatever [g1] answers. *)
Definition ga_le (g1 g2 : type_id -> string -> result pyobj) : Prop :=
  forall c n o, g1 c n = Ok o -> g2 c n = Ok o.

(** ** More classes

    [class Base(DataSet)] with columns [a] and [b], [class Derived(Base)]
    adding [c], [class Shadow(Base)] with the plain attribute [a = 5],
    a class [X] made by the metaclass from [object] alone, and
    [class Dom(DataSet)] with a column called [domain]. *)
Definition Base_dict : gmap string pyobj :=
  {[ "a" := OColumn (mkColumn float64_dtype NotSpecified);
     "b" := OColumn (mkColumn int64_dtype (Given (VInt (-1)))) ]}.
Definition Derived_dict : gmap string pyobj :=
  {[ "c" := OColumn (mkColumn bool_dtype NotSpecified) ]}.
Definition Shadow_dict : gmap string pyobj := {[ "a" := OVal (VInt 5) ]}.
Definition X_dict : gmap string pyobj :=
  {[ "v" := OColumn (mkColumn float64_dtype NotSpecified) ]}.
Definition Dom_dict : gmap string pyobj :=
  {[ "domain" := OColumn (mkColumn float64_dtype NotSpecified) ]}.
Definition Redeclared_dict : gmap string pyobj :=
  {[ "a" := OColumn (mkColumn int64_dtype (Given (VInt 0))) ]}.

Definition Base_id : type_id := 3.
Definition Derived_id : type_id := 4.
Definition Shadow_id : type_id := 5.
Definition X_id : type_id := 6.
Definition Dom_id : type_id := 7.

Definition store3 : store :=
  store_of (new_class store2 "Base" [DataSet_id] Base_dict).
Definition store4 : store :=
  store_of (new_class store3 "Derived" [Base_id] Derived_dict).
Definition store5 : store :=
  store_of (new_class store4 "Shadow" [Base_id] Shadow_dict).
Definition store6 : store :=
  store_of (new_class store5 "X" [object_id] X_dict).
Definition store7 : store :=
  store_of (new_class store6 "Dom" [DataSet_id] Dom_dict).

(** The descriptor and the bound columns of [PriceData]. *)
Definition price_descr : BoundColumnDescr :=
  mkDescr float64_dtype VNaN "price".
Definition price_column : BoundColumn :=
  mkBound (mkTerm (OVal VNone) float64_dtype VNaN) PriceData_id "price".
Definition volume_column : BoundColumn :=
  mkBound (mkTerm (OVal VNone) int64_dtype (VInt 0)) PriceData_id "volume".

(** The class object behind an identity, and the descriptor of [Base.a]. *)
Definition class_of (st : store) (c : type_id) : pyclass :=
  default object_class (st !! c).
Definition a_descr : BoundColumnDescr := mkDescr float64_dtype VNaN "a".

(** [class Redeclared(Base)] declaring [a] again, with another dtype. *)
Definition Redeclared_id : type_id := 5.
Definition store4r : store :=
  store_of (new_class store4 "Redeclared" [Base_id] Redeclared_dict).


(** ** Programs

    A class body as a class statement writes it: columns and plain
    values. *)
Definition simple_body (dict_ : gmap string pyobj) : Prop :=
  forall n o, dict_ !! n = Some o ->
              (exists c, o = OColumn c) \/ (exists v, o = OVal v).

(** The stores of programs whose class bodies are all of that kind. *)
Inductive program_store (dm : dtype -> option pyval)
    (cc : pyval -> dtype -> bool) : list pyclass -> Prop :=
  | program_module DataSet st :
      DataSet_module dm cc = Ok (DataSet, st) -> program_store dm cc st
  | program_class st name bases dict_ newtype st' :
      program_store dm cc st ->
      simple_body dict_ ->
      DataSetMeta_new dm cc st name bases dict_ = Ok (newtype, st') ->
      program_store dm cc st'.

(** What a class of such a program keeps in its [__dict__]. *)
Definition class_entry (n : string) (o : pyobj) : Prop :=
  (exists d, o = ODescr d /\ descr_name d = n)
  \/ (exists v, o = OVal v)
  \/ (exists s, o = ONames s /\ n = "_column_names").

(** ** Ordering dataset classes

    [DataSetMeta.__lt__]: [id(self) < id(other)], where [id] is the
    interpreter's, an integer per object. *)
Definition DataSetMeta_lt (id : nat -> Z) (self other : type_id) : bool :=
  (id self <? id other)%Z.

(** [class PriceData(DataSet)] defined a second time. *)
Definition PriceData2_id : type_id := 3.
Definition store2b : store :=
  store_of (new_class store2 "PriceData" [DataSet_id] PriceData_dict).

(** [class Bad(DataSet): volume = Column(int64)], which cannot be defined,
    and what [Derived.columns] and [Derived.a] give. *)
Definition Bad_dict : gmap string pyobj :=
  {[ "volume" := OColumn (mkColumn int64_dtype NotSpecified) ]}.
Definition Derived_columns : list pyobj :=
  match getattr 3 store4 Derived_id "columns" with
  | Ok (OFrozenset l) => l
  | _ => []
  end.
Definition Derived_a : BoundColumn :=
  mkBound (mkTerm (OVal VNone) float64_dtype VNaN) Derived_id "a".
Definition Base_a : BoundColumn :=
  mkBound (mkTerm (OVal VNone) float64_dtype VNaN) Base_id "a".

(** * Properties *)

(** ** Results and strings *)

Lemma rbind_Ok {A B : Type} (r : result A) (k : A -> result B) (b : B) :
  rbind r k = Ok b -> exists a, r = Ok a /\ k a = Ok b.
Proof. destruct r as [a| |]; simpl; intros H; [eauto | discriminate..]. Qed.

Lemma rbind_not_ok {A B : Type} (r : result A) (k : A -> result B) :
  is_ok r = false -> is_ok (rbind r k) = false.
Proof. destruct r; simpl; congruence. Qed.

Ltac inv_bind H :=
  let a := fresh "a" in
  let Ha := fresh "Ha" in
  apply rbind_Ok in H as (a & Ha & H).

Lemma append_assoc (a b c : string) : (a ++ b) ++ c = a ++ b ++ c.
Proof.
  induction a as [|x a IH]; [done|].
  change (String x ((a ++ b) ++ c) = String x (a ++ b ++ c)). by f_equal.
Qed.

Lemma append_nil_r (a : string) : a ++ EmptyString = a.
Proof.
  induction a as [|x a IH]; [done|].
  change (String x (a ++ EmptyString) = String x a). by f_equal.
Qed.

Lemma contains_here (pre s post : string) : contains s (pre ++ s ++ post).
Proof. by exists pre, post. Qed.

Lemma contains_app_r (s a b : string) : contains s b -> contains s (a ++ b).
Proof.
  intros (pre & post & ->). exists (a ++ pre), post.
  by rewrite append_assoc.
Qed.

Lemma contains_app_l (s a b : string) : contains s a -> contains s (a ++ b).
Proof.
  intros (pre & post & ->). exists pre, (post ++ b).
  by rewrite !append_assoc.
Qed.

(** ** Binding a column *)

Section Properties.

Variable dm : dtype -> option pyval.
Variable cc : pyval -> dtype -> bool.

Lemma message_names_column (d : dtype) (n : string) :
  contains n (no_missing_value_message d n)
  /\ contains (dtype_name d) (no_missing_value_message d n).
Proof.
  unfold no_missing_value_message, repr_str. split.
  - apply contains_app_r, contains_app_l, contains_app_r, contains_app_l.
    exists EmptyString, EmptyString.
    change (n = n ++ EmptyString). by rewrite append_nil_r.
  - do 3 apply contains_app_r. apply contains_here.
Qed.

Lemma bind_no_default (d : dtype) (n : string) :
  dm d = None ->
  bind dm cc (mkColumn d NotSpecified) n
  = Raise (NoDefaultMissingValue (no_missing_value_message d n)).
Proof.
  intros Hd. unfold bind, BoundColumnDescr_init, validate_dtype. simpl.
  by rewrite Hd.
Qed.

Lemma bind_columns_fails (items : list (string * pyobj)) (k : string)
    (c : Column) :
  (k, OColumn c) ∈ items ->
  is_ok (bind dm cc c k) = false ->
  forall d names, is_ok (bind_columns dm cc items d names) = false.
Proof.
  induction items as [|[k' o] items IH]; intros Hin Hfail d names.
  - by apply elem_of_nil in Hin.
  - apply elem_of_cons in Hin as [Heq | Hin].
    + injection Heq as <- <-. simpl. by apply rbind_not_ok.
    + simpl. destruct o; try by apply IH.
      destruct (bind dm cc c0 k'); simpl; auto.
      unfold class_setattr. destruct (bool_decide (k' = "columns")); simpl;
        auto.
Qed.

(** C3: a column of a dtype without a default missing value, declared with
    no missing value, cannot be bound: [bind] raises [NoDefaultMissingValue]
    with a message that contains the field name and the dtype, and so every
    class definition whose body holds that column fails, before any field is
    accessed. *)
Theorem C3_no_default_missing_value (d : dtype) (n : string) :
  dm d = None ->
  (exists msg,
      bind dm cc (mkColumn d NotSpecified) n
      = Raise (NoDefaultMissingValue msg)
      /\ contains n msg /\ contains (dtype_name d) msg)
  /\ (forall st cname bases dict_,
        dict_ !! n = Some (OColumn (mkColumn d NotSpecified)) ->
        is_ok (DataSetMeta_new dm cc st cname bases dict_) = false).
Proof.
  intros Hd. split.
  - exists (no_missing_value_message d n).
    split; [by apply bind_no_default | apply message_names_column].
  - intros st cname bases dict_ Hin. unfold DataSetMeta_new.
    destruct (type_new st cname bases dict_) as [[newtype st1]| |];
      simpl; try done.
    destruct (inherited_column_names st1 bases) as [names| |]; simpl; try done.
    apply rbind_not_ok.
    apply bind_columns_fails with (k := n) (c := mkColumn d NotSpecified).
    + by apply elem_of_map_to_list.
    + by rewrite bind_no_default.
Qed.

(** ** Attribute access: more fuel never changes an answer *)

Lemma rmapM_cons {A B : Type} (f : A -> result B) (a : A) (l : list A) :
  rmapM f (a :: l) = (do b <- f a; do bs <- rmapM f l; Ok (b :: bs)).
Proof. reflexivity. Qed.

Lemma rmapM_mono {A B : Type} (f g : A -> result B) (l : list A)
    (r : list B) :
  (forall a b, f a = Ok b -> g a = Ok b) ->
  rmapM f l = Ok r -> rmapM g l = Ok r.
Proof.
  intros Hfg. revert r. induction l as [|a l IH]; intros r H; [done|].
  simpl in *. inv_bind H. inv_bind H. injection H as <-.
  rewrite (Hfg _ _ Ha). simpl. by rewrite (IH _ Ha0).
Qed.

Lemma BoundColumn_new_mono g1 g2 d mv owner n b :
  ga_le g1 g2 ->
  BoundColumn_new g1 d mv owner n = Ok b ->
  BoundColumn_new g2 d mv owner n = Ok b.
Proof.
  intros Hle H. unfold BoundColumn_new in *. inv_bind H.
  by rewrite (Hle _ _ _ Ha).
Qed.

Lemma DataSetMeta_columns_mono g1 g2 self o :
  ga_le g1 g2 ->
  DataSetMeta_columns g1 self = Ok o -> DataSetMeta_columns g2 self = Ok o.
Proof.
  intros Hle H. unfold DataSetMeta_columns in *. inv_bind H.
  rewrite (Hle _ _ _ Ha). simpl. destruct a; try discriminate.
  inv_bind H. injection H as <-.
  by rewrite (rmapM_mono _ (fun colname => g2 self colname) _ _
                (Hle self) Ha0).
Qed.

Lemma getattr_eq (st : store) (fuel : nat) (c : type_id) (n : string) :
  getattr (S fuel) st c n
  = match st !! c with
    | None => Raise (TypeError "not a class of the store")
    | Some k =>
        if cls_meta k && bool_decide (n = "columns") then
          DataSetMeta_columns (getattr fuel st) c
        else
          match mro_lookup st (cls_mro k) n with
          | Some (ODescr d) =>
              do b <- BoundColumnDescr_get (getattr fuel st) d c;
              Ok (OBound b)
          | Some o => Ok o
          | None => Raise (no_attribute (cls_name k) n)
          end
    end.
Proof. reflexivity. Qed.

Lemma getattr_S (st : store) (fuel : nat) :
  ga_le (getattr fuel st) (getattr (S fuel) st).
Proof.
  induction fuel as [|fuel IH]; intros c n o H; [discriminate|].
  rewrite getattr_eq in H. rewrite getattr_eq.
  destruct (st !! c) as [k|]; [|done].
  destruct (cls_meta k && bool_decide (n = "columns")).
  - by apply DataSetMeta_columns_mono with (g1 := getattr fuel st).
  - destruct (mro_lookup st (cls_mro k) n) as [[]|]; try done.
    inv_bind H. unfold BoundColumnDescr_get in *.
    by rewrite (BoundColumn_new_mono _ _ _ _ _ _ _ IH Ha).
Qed.

Lemma getattr_mono (st : store) (fuel fuel' : nat) :
  fuel <= fuel' -> ga_le (getattr fuel st) (getattr fuel' st).
Proof.
  induction 1 as [|fuel' _ IH]; intros c n o H; [done|].
  by apply getattr_S, IH.
Qed.

Lemma getattr_det (st : store) (f1 f2 : nat) c n o1 o2 :
  getattr f1 st c n = Ok o1 -> getattr f2 st c n = Ok o2 -> o1 = o2.
Proof.
  intros H1 H2.
  apply (getattr_mono st f1 (f1 `max` f2)) in H1; [|lia].
  apply (getattr_mono st f2 (f1 `max` f2)) in H2; [|lia].
  congruence.
Qed.

(** ** Bound columns and their identity *)

Lemma BoundColumn_new_Ok ga d mv owner n b :
  BoundColumn_new ga d mv owner n = Ok b <->
  exists dom, ga owner "domain" = Ok dom
              /\ b = mkBound (mkTerm dom d mv) owner n.
Proof.
  unfold BoundColumn_new, Term_new. split.
  - intros H. inv_bind H. simpl in H. injection H as <-. eauto.
  - intros (dom & -> & ->). done.
Qed.

Lemma getattr_Ok_class st fuel c n o :
  getattr fuel st c n = Ok o -> exists k, st !! c = Some k.
Proof.
  destruct fuel as [|fuel]; [discriminate|]. rewrite getattr_eq.
  destruct (st !! c) as [k|]; [eauto | discriminate].
Qed.

(** C4: resolving a binding descriptor twice against the same owner gives
    bound columns with the same identity key: once a call has produced a
    column, every later call produces it again, and any two results agree on
    the key. *)
Theorem C4_resolve_is_idempotent (st : store) (descr : BoundColumnDescr)
    (owner : type_id) (f1 : nat) (b1 : BoundColumn) :
  BoundColumnDescr_get (getattr f1 st) descr owner = Ok b1 ->
  (forall f2, f1 <= f2 ->
     BoundColumnDescr_get (getattr f2 st) descr owner = Ok b1)
  /\ (forall f2 b2,
        BoundColumnDescr_get (getattr f2 st) descr owner = Ok b2 ->
        identity b1 = identity b2).
Proof.
  unfold BoundColumnDescr_get. intros H1. split.
  - intros f2 Hle.
    by apply (BoundColumn_new_mono _ _ _ _ _ _ _ (getattr_mono st f1 f2 Hle)).
  - intros f2 b2 H2.
    apply BoundColumn_new_Ok in H1 as (dom1 & Hd1 & ->).
    apply BoundColumn_new_Ok in H2 as (dom2 & Hd2 & ->).
    by rewrite (getattr_det _ _ _ _ _ _ _ Hd1 Hd2).
Qed.

(** C8: the qualified name of a bound column is the name of the class that
    owns it, a dot and the field name; its repr is the qualified name, two
    colons and the name of the dtype. *)
Theorem C8_qualname_and_repr (st : store) (fuel : nat)
    (descr : BoundColumnDescr) (owner : type_id) (b : BoundColumn) :
  BoundColumnDescr_get (getattr fuel st) descr owner = Ok b ->
  exists k,
    st !! owner = Some k
    /\ qualname st b = Ok (cls_name k ++ "." ++ descr_name descr)
    /\ repr st b
       = Ok ((cls_name k ++ "." ++ descr_name descr) ++ "::"
             ++ dtype_name (descr_dtype descr)).
Proof.
  intros H. apply BoundColumn_new_Ok in H as (dom & Hdom & ->).
  destruct (getattr_Ok_class _ _ _ _ _ Hdom) as [k Hk]. exists k.
  unfold repr, qualname, dataset, name, dtype_of. simpl.
  by rewrite Hk.
Qed.

(** ** Method resolution order *)

Lemma find_head_elem (cands all : list (list type_id)) (x : type_id) :
  find_head cands all = Some x -> exists l, l ∈ cands /\ x ∈ l.
Proof.
  induction cands as [|l cands IH]; [done|]. simpl.
  destruct l as [|y l].
  - intros H. destruct (IH H) as (l' & ? & ?). exists l'. split; [|done].
    by apply elem_of_cons; right.
  - destruct (good_head all y).
    + intros [= ->]. exists (x :: l). split; apply elem_of_cons; by left.
    + intros H. destruct (IH H) as (l' & ? & ?). exists l'. split; [|done].
      by apply elem_of_cons; right.
Qed.

Lemma drop_head_elem (x y : type_id) (l : list type_id) :
  y ∈ drop_head x l -> y ∈ l.
Proof.
  destruct l as [|z l]; [done|]. simpl. destruct (decide (x = z)); [|done].
  intros ?. by apply elem_of_cons; right.
Qed.

Lemma c3_merge_eq (fuel : nat) (seqs : list (list type_id)) :
  c3_merge (S fuel) seqs
  = match List.filter nonempty seqs with
    | [] => Some []
    | live =>
        match find_head live live with
        | None => None
        | Some x => cons x <$> c3_merge fuel (map (drop_head x) live)
        end
    end.
Proof. reflexivity. Qed.

Lemma c3_merge_elem (fuel : nat) (seqs : list (list type_id))
    (m : list type_id) (x : type_id) :
  c3_merge fuel seqs = Some m -> x ∈ m -> exists l, l ∈ seqs /\ x ∈ l.
Proof.
  revert seqs m. induction fuel as [|fuel IH]; intros seqs m.
  - simpl. destruct (List.filter nonempty seqs); [|done].
    intros [= <-] Hx. by apply elem_of_nil in Hx.
  - rewrite c3_merge_eq.
    destruct (List.filter nonempty seqs) as [|l0 live] eqn:Hlive.
    { intros [= <-] Hx. by apply elem_of_nil in Hx. }
    cbv zeta.
    destruct (find_head (l0 :: live) (l0 :: live)) as [h|] eqn:Hh; [|done].
    destruct (c3_merge fuel (map (drop_head h) (l0 :: live)))
      as [m'|] eqn:Hm'; [|done].
    intros [= <-] Hx.
    assert (Hsub : forall l, l ∈ l0 :: live -> l ∈ seqs).
    { intros l Hl. rewrite <- Hlive in Hl.
      apply list_elem_of_In, List.filter_In in Hl as [Hl _].
      by apply list_elem_of_In. }
    apply elem_of_cons in Hx as [-> | Hx].
    + destruct (find_head_elem _ _ _ Hh) as (l & Hl & ?). eauto.
    + destruct (IH _ _ Hm' Hx) as (l' & Hl' & Hxl').
      apply list_elem_of_In, List.in_map_iff in Hl' as (l & <- & Hl).
      apply list_elem_of_In in Hl. exists l.
      split; [by apply Hsub | by eapply drop_head_elem].
Qed.

Lemma find_head_good (cands all : list (list type_id)) (x : type_id) :
  find_head cands all = Some x -> good_head all x = true.
Proof.
  induction cands as [|[|y l] cands IH]; simpl; [done|done|].
  destruct (good_head all y) eqn:Hy; [|done]. by intros [= <-].
Qed.

Lemma good_head_tail (all : list (list type_id)) (x : type_id)
    (l : list type_id) :
  good_head all x = true -> l ∈ all -> x ∉ tail l.
Proof.
  unfold good_head. rewrite List.forallb_forall. intros H Hl.
  apply list_elem_of_In, H, negb_true_iff in Hl.
  by apply bool_decide_eq_false in Hl.
Qed.

Lemma c3_merge_NoDup (fuel : nat) (seqs : list (list type_id))
    (m : list type_id) :
  c3_merge fuel seqs = Some m -> NoDup m.
Proof.
  revert seqs m. induction fuel as [|fuel IH]; intros seqs m.
  - simpl. destruct (List.filter nonempty seqs); [|done].
    intros [= <-]. constructor.
  - rewrite c3_merge_eq.
    destruct (List.filter nonempty seqs) as [|l0 live] eqn:Hlive.
    { intros [= <-]. constructor. }
    cbv zeta.
    destruct (find_head (l0 :: live) (l0 :: live)) as [h|] eqn:Hh; [|done].
    destruct (c3_merge fuel (map (drop_head h) (l0 :: live)))
      as [m'|] eqn:Hm'; [|done].
    intros [= <-]. apply NoDup_cons. split; [|by eapply IH].
    intros Hin. destruct (c3_merge_elem _ _ _ _ Hm' Hin) as (l' & Hl' & Hhl').
    apply list_elem_of_In, List.in_map_iff in Hl' as (l & <- & Hl).
    apply list_elem_of_In in Hl.
    pose proof (good_head_tail _ _ _ (find_head_good _ _ _ Hh) Hl) as Ht.
    destruct l as [|y t]; [by apply elem_of_nil in Hhl'|].
    simpl in Hhl', Ht. destruct (decide (h = y)) as [-> | Hne]; [done|].
    by apply elem_of_cons in Hhl' as [? | ?].
Qed.

Lemma filter_nonempty_idemp (seqs : list (list type_id)) :
  List.filter nonempty (List.filter nonempty seqs)
  = List.filter nonempty seqs.
Proof.
  induction seqs as [|[|x l] seqs IH]; simpl; [done|done|by f_equal].
Qed.

Lemma c3_merge_filter (fuel : nat) (seqs : list (list type_id)) :
  c3_merge fuel (List.filter nonempty seqs) = c3_merge fuel seqs.
Proof.
  destruct fuel as [|fuel].
  - simpl. by rewrite filter_nonempty_idemp.
  - by rewrite !c3_merge_eq, filter_nonempty_idemp.
Qed.

Lemma good_head_intro (all : list (list type_id)) (x : type_id) :
  (forall l, l ∈ all -> x ∉ tail l) -> good_head all x = true.
Proof.
  intros H. unfold good_head. apply List.forallb_forall. intros l Hl.
  apply negb_true_iff, bool_decide_eq_false, H. by apply list_elem_of_In.
Qed.

Lemma find_head_cons (x : type_id) (l : list type_id)
    (rest all : list (list type_id)) :
  find_head ((x :: l) :: rest) all
  = if good_head all x then Some x else find_head rest all.
Proof. reflexivity. Qed.

Lemma drop_head_same (x : type_id) (l : list type_id) :
  drop_head x (x :: l) = l.
Proof. unfold drop_head. by rewrite decide_True. Qed.

Lemma c3_merge_single (l : list type_id) (fuel : nat) :
  NoDup l -> length l <= fuel -> c3_merge fuel [l] = Some l.
Proof.
  revert fuel. induction l as [|x t IH]; intros fuel Hnd Hlen.
  - by destruct fuel.
  - destruct fuel as [|fuel]; [simpl in Hlen; lia|].
    apply NoDup_cons in Hnd as [Hx Hnd]. rewrite c3_merge_eq.
    change (List.filter nonempty [x :: t]) with [x :: t].
    cbv beta iota zeta.
    assert (Hg : good_head [x :: t] x = true).
    { apply good_head_intro. intros l Hl.
      by apply list_elem_of_singleton in Hl as ->. }
    rewrite find_head_cons, Hg.
    change (map (drop_head x) [x :: t]) with [drop_head x (x :: t)].
    rewrite drop_head_same, IH; [done|done|simpl in Hlen; lia].
Qed.

Lemma c3_merge_one_base (B : type_id) (rest : list type_id) :
  B ∉ rest -> NoDup rest ->
  c3_merge (total_length [B :: rest; [B]]) [B :: rest; [B]]
  = Some (B :: rest).
Proof.
  intros HB Hnd.
  change (total_length [B :: rest; [B]]) with (S (length rest + (1 + 0))).
  rewrite c3_merge_eq.
  change (List.filter nonempty [B :: rest; [B]]) with [B :: rest; [B]].
  cbv beta iota zeta.
  assert (Hg : good_head [B :: rest; [B]] B = true).
  { apply good_head_intro. intros l Hl.
    apply elem_of_cons in Hl as [-> | Hl]; [done|].
    apply list_elem_of_singleton in Hl as ->. apply not_elem_of_nil. }
  rewrite find_head_cons, Hg.
  change (map (drop_head B) [B :: rest; [B]])
    with [drop_head B (B :: rest); drop_head B [B]].
  rewrite !drop_head_same, <- c3_merge_filter.
  replace (List.filter nonempty [rest; []])
    with (List.filter nonempty [rest]) by by destruct rest.
  rewrite c3_merge_filter, c3_merge_single; [done|done|lia].
Qed.

Lemma mro_lookup_cons (st : store) (c : type_id) (rest : list type_id)
    (n : string) :
  mro_lookup st (c :: rest) n
  = match st !! c ≫= (fun k => cls_dict k !! n) with
    | Some o => Some o
    | None => mro_lookup st rest n
    end.
Proof. reflexivity. Qed.

Lemma mro_lookup_app (st ext : store) (mro : list type_id) (n : string) :
  Forall (fun c => c < length st) mro ->
  mro_lookup (st ++ ext)%list mro n = mro_lookup st mro n.
Proof.
  induction 1 as [|c mro Hc _ IH]; [done|].
  by rewrite !mro_lookup_cons, lookup_app_l, IH.
Qed.

(** ** Defining a class *)

Lemma type_new_Ok (st : store) (cname : string) (bases : list type_id)
    (dict_ : gmap string pyobj) (T : type_id) (st1 : store) :
  type_new st cname bases dict_ = Ok (T, st1) ->
  T = length st
  /\ Forall (fun b => is_Some (st !! b)) (bases_or_object bases)
  /\ exists m,
      Forall (fun x => x ∈ bases_or_object bases
                       \/ exists b kb, b ∈ bases_or_object bases
                            /\ st !! b = Some kb /\ x ∈ cls_mro kb) m
      /\ NoDup m
      /\ st1 = (st ++ [mkClass cname (bases_or_object bases) (T :: m) true
                         dict_])%list.
Proof.
  unfold type_new. intros H.
  destruct (mapM _ (bases_or_object bases)) as [mros|] eqn:Hmros; [|done].
  destruct (c3_merge _ _) as [m|] eqn:Hm; [|done].
  injection H as <- <-. apply mapM_Some in Hmros.
  split; [done|]. split.
  - apply Forall_forall. intros b Hb.
    apply list_elem_of_lookup_1 in Hb as [i Hi].
    destruct (Forall2_lookup_l _ _ _ _ _ Hmros Hi) as (mro & _ & Hmro).
    by destruct (st !! b).
  - exists m. split; [|split; [by eapply c3_merge_NoDup | done]].
    apply Forall_forall. intros x Hx.
    destruct (c3_merge_elem _ _ _ _ Hm Hx) as (l & Hl & Hxl).
    apply elem_of_app in Hl as [Hl | Hl].
    + right. apply list_elem_of_lookup_1 in Hl as [i Hi].
      destruct (Forall2_lookup_r _ _ _ _ _ Hmros Hi) as (b & Hb & Hmro).
      destruct (st !! b) as [kb|] eqn:Hkb; [|done].
      injection Hmro as <-. exists b, kb.
      split; [by eapply list_elem_of_lookup_2 | done].
    + left. by apply list_elem_of_singleton in Hl as ->.
Qed.

Lemma bind_columns_Ok (items : list (string * pyobj))
    (d d' : gmap string pyobj) (names names' : gset string) :
  NoDup items.*1 ->
  bind_columns dm cc items d names = Ok (d', names') ->
  (forall n, n ∈ names' <-> n ∈ names \/ exists c, (n, OColumn c) ∈ items)
  /\ (forall n c, (n, OColumn c) ∈ items ->
        n <> "columns"
        /\ exists descr, bind dm cc c n = Ok descr
                         /\ d' !! n = Some (ODescr descr))
  /\ (forall n, (forall c, (n, OColumn c) ∉ items) -> d' !! n = d !! n).
Proof.
  revert d names. induction items as [|[k o] items IH]; intros d names Hnd H.
  - injection H as <- <-. split; [|split].
    + intros n. split; [auto|]. intros [?|[c Hc]]; [done|].
      by apply elem_of_nil in Hc.
    + intros n c Hc. by apply elem_of_nil in Hc.
    + done.
  - apply NoDup_cons in Hnd as [Hk Hnd].
    assert (Hfresh : forall o', (k, o') ∉ items).
    { intros o' Ho'. apply Hk. apply list_elem_of_fmap. by exists (k, o'). }
    assert (Hskip : bind_columns dm cc items d names = Ok (d', names') ->
      (forall c, o <> OColumn c) ->
      (forall n, n ∈ names' <-> n ∈ names
                                \/ exists c, (n, OColumn c) ∈ (k, o) :: items)
      /\ (forall n c, (n, OColumn c) ∈ (k, o) :: items ->
            n <> "columns"
            /\ exists descr, bind dm cc c n = Ok descr
                             /\ d' !! n = Some (ODescr descr))
      /\ (forall n, (forall c, (n, OColumn c) ∉ (k, o) :: items) ->
            d' !! n = d !! n)).
    { intros H' Ho. destruct (IH _ _ Hnd H') as (IH1 & IH2 & IH3).
      split; [|split].
      - intros n. rewrite IH1. split; (intros [?|[c Hc]]; [by left|right]).
        + exists c. by apply elem_of_cons; right.
        + exists c. apply elem_of_cons in Hc as [[= -> <-]|Hc]; [|done].
          exfalso. by eapply Ho.
      - intros n c Hc. apply elem_of_cons in Hc as [[= -> <-]|Hc]; [|eauto].
        exfalso. by eapply Ho.
      - intros n Hn. apply IH3. intros c Hc. apply (Hn c).
        by apply elem_of_cons; right. }
    destruct o as [v|c|dd|s|b|l]; try (apply Hskip; done).
    simpl in H. inv_bind H. rename a into descr. inv_bind H.
    unfold class_setattr in Ha0.
    destruct (bool_decide (k = "columns")) eqn:Hcol; [done|].
    apply bool_decide_eq_false in Hcol. injection Ha0 as <-.
    destruct (IH _ _ Hnd H) as (IH1 & IH2 & IH3). split; [|split].
    + intros n. rewrite IH1, elem_of_union, elem_of_singleton.
      split.
      * intros [[?| ->]|[c' Hc']]; [by left| |].
        -- right. exists c. by apply elem_of_cons; left.
        -- right. exists c'. by apply elem_of_cons; right.
      * intros [?|[c' Hc']]; [by left; left|].
        apply elem_of_cons in Hc' as [[= -> ->]|Hc']; [by left; right|].
        right. eauto.
    + intros n c' Hc'. apply elem_of_cons in Hc' as [[= -> ->]|Hc']; [|eauto].
      split; [done|]. exists descr. split; [done|].
      rewrite IH3; [by rewrite lookup_insert_eq|]. intros c'. apply Hfresh.
    + intros n Hn. rewrite IH3.
      * apply lookup_insert_ne. intros ->. apply (Hn c).
        by apply elem_of_cons; left.
      * intros c' Hc'. apply (Hn c'). by apply elem_of_cons; right.
Qed.

(** ** Well-formed stores *)

Lemma class_attr_own (st : store) (c : type_id) (k : pyclass) (n : string)
    (o : pyobj) :
  wf_store st -> st !! c = Some k -> cls_dict k !! n = Some o ->
  class_attr st c n = Some o.
Proof.
  intros Hwf Hk Ho. unfold class_attr. rewrite Hk. simpl.
  destruct (wf_mro _ Hwf _ _ Hk) as (rest & -> & _).
  rewrite mro_lookup_cons, Hk. simpl. by rewrite Ho.
Qed.

Lemma wf_mro_bound (st : store) (c : type_id) (k : pyclass) :
  wf_store st -> st !! c = Some k ->
  Forall (fun x => x < length st) (cls_mro k).
Proof.
  intros Hwf Hk. destruct (wf_mro _ Hwf _ _ Hk) as (rest & -> & Hrest & _).
  pose proof (lookup_lt_Some _ _ _ Hk) as Hlt.
  constructor; [done|]. eapply Forall_impl; [exact Hrest|].
  simpl. intros x Hx. lia.
Qed.

Lemma class_attr_app (st ext : store) (c : type_id) (n : string) :
  wf_store st -> c < length st ->
  class_attr (st ++ ext)%list c n = class_attr st c n.
Proof.
  intros Hwf Hc. unfold class_attr. rewrite lookup_app_l by done.
  destruct (st !! c) as [k|] eqn:Hk; [simpl|done].
  apply mro_lookup_app. by eapply wf_mro_bound.
Qed.

Lemma column_names_app (st ext : store) (c : type_id) :
  wf_store st -> c < length st ->
  column_names (st ++ ext)%list c = column_names st c.
Proof. intros Hwf Hc. unfold column_names. by rewrite class_attr_app. Qed.

Lemma base_column_names_wf (st : store) (b : type_id) :
  wf_store st -> is_Some (st !! b) ->
  base_column_names st b = Ok (column_names st b).
Proof.
  intros Hwf [k Hk]. unfold base_column_names, column_names.
  destruct (decide (b = object_id)) as [-> | Hb].
  - rewrite (wf_object _ Hwf) in Hk. injection Hk as <-.
    unfold class_attr. rewrite (wf_object _ Hwf). simpl.
    by rewrite (wf_object _ Hwf).
  - destruct (wf_meta _ Hwf _ _ Hk Hb) as (_ & s & Hs).
    by rewrite (class_attr_own _ _ _ _ _ Hwf Hk Hs).
Qed.

Lemma rmapM_fmap {A B : Type} (f : A -> result B) (g : A -> B)
    (l : list A) :
  Forall (fun a => f a = Ok (g a)) l -> rmapM f l = Ok (g <$> l).
Proof.
  induction 1 as [|a l Ha _ IH]; [done|]. simpl. by rewrite Ha, IH.
Qed.

Lemma insert_last {A : Type} (l : list A) (x y : A) :
  <[length l := y]> (l ++ [x])%list = (l ++ [y])%list.
Proof.
  rewrite <- (Nat.add_0_r (length l)). by rewrite insert_app_r.
Qed.

Lemma lookup_last {A : Type} (l : list A) (x : A) :
  (l ++ [x])%list !! length l = Some x.
Proof. by rewrite lookup_app_r, Nat.sub_diag by lia. Qed.

Lemma bases_in_store (st : store) (bases : list type_id) :
  Forall (fun b => is_Some (st !! b)) (bases_or_object bases) ->
  Forall (fun b => is_Some (st !! b)) bases.
Proof. destruct bases; [constructor | done]. Qed.

Lemma inherited_column_names_wf (st ext : store) (bases : list type_id) :
  wf_store st ->
  Forall (fun b => is_Some (st !! b)) bases ->
  inherited_column_names (st ++ ext)%list bases
  = Ok (⋃ (column_names st <$> bases)).
Proof.
  intros Hwf Hbases. unfold inherited_column_names.
  rewrite (rmapM_fmap _ (column_names st)); [done|].
  eapply Forall_impl; [exact Hbases|].
  simpl. intros b Hb. rewrite <- (base_column_names_wf _ _ Hwf Hb).
  unfold base_column_names. rewrite class_attr_app; [done..|].
  destruct Hb as [k Hk]. by eapply lookup_lt_Some.
Qed.

Lemma DataSetMeta_new_Ok (st : store) (cname : string)
    (bases : list type_id) (dict_ : gmap string pyobj) (T : type_id)
    (st' : store) :
  wf_store st ->
  DataSetMeta_new dm cc st cname bases dict_ = Ok (T, st') ->
  T = length st
  /\ Forall (fun b => b < length st) (bases_or_object bases)
  /\ exists m d names,
      Forall (fun x => x < length st) m /\ NoDup m
      /\ bind_columns dm cc (map_to_list dict_) dict_
           (⋃ (column_names st <$> bases)) = Ok (d, names)
      /\ st' = (st ++ [mkClass cname (bases_or_object bases) (T :: m) true
                         (<["_column_names" := ONames names]> d)])%list.
Proof.
  intros Hwf H. unfold DataSetMeta_new in H. inv_bind H.
  destruct a as [T0 st1].
  apply type_new_Ok in Ha as (-> & Hbases & m & Hm & Hnd & ->).
  inv_bind H. rename a into inh. inv_bind H. destruct a as [d names].
  rewrite lookup_last in H. simpl in H. rewrite insert_last in H.
  injection H as <- <-.
  assert (Hlt : Forall (fun b => b < length st) (bases_or_object bases)).
  { eapply Forall_impl; [exact Hbases|]. simpl. intros b [k Hk].
    by eapply lookup_lt_Some. }
  split; [done|]. split; [done|]. exists m, d, names.
  split; [|split; [done|split; [|done]]].
  - apply Forall_forall. intros x Hx.
    destruct (proj1 (Forall_forall _ _) Hm x Hx) as [Hb | (b & kb & Hb & Hkb & Hxb)].
    + by apply (proj1 (Forall_forall _ _) Hlt).
    + by apply (proj1 (Forall_forall _ _) (wf_mro_bound _ _ _ Hwf Hkb)).
  - rewrite (inherited_column_names_wf _ _ _ Hwf
               (bases_in_store _ _ Hbases)) in Ha.
    by injection Ha as <-.
Qed.

Lemma column_names_new (st : store) (k : pyclass) (m : list type_id)
    (s : gset string) :
  cls_mro k = length st :: m ->
  cls_dict k !! "_column_names" = Some (ONames s) ->
  column_names (st ++ [k])%list (length st) = s.
Proof.
  intros Hmro Hs. unfold column_names, class_attr. rewrite lookup_last.
  simpl. by rewrite Hmro, mro_lookup_cons, lookup_last; simpl; rewrite Hs.
Qed.

Lemma wf_store_new (st : store) (cname : string) (bases : list type_id)
    (dict_ : gmap string pyobj) (T : type_id) (st' : store) :
  wf_store st ->
  DataSetMeta_new dm cc st cname bases dict_ = Ok (T, st') ->
  wf_store st'.
Proof.
  intros Hwf H.
  destruct (DataSetMeta_new_Ok _ _ _ _ _ _ Hwf H)
    as (-> & Hbases & m & d & names & Hm & Hnd & Hbind & ->).
  apply bind_columns_Ok in Hbind as (Hnames & Hcols & _);
    [|apply NoDup_fst_map_to_list].
  pose proof (lookup_lt_Some _ _ _ (wf_object _ Hwf)) as H0.
  constructor.
  - rewrite lookup_app_l by done. apply (wf_object _ Hwf).
  - destruct (wf_DataSet _ Hwf) as (k & Hk & ?). exists k. split; [|done].
    rewrite lookup_app_l; [done|]. by eapply lookup_lt_Some.
  - intros c k Hk Hc. apply lookup_snoc_Some in Hk as [[_ Hk] | [_ <-]].
    + by apply (wf_meta _ Hwf c k).
    + simpl. split; [done|]. exists names. by rewrite lookup_insert_eq.
  - intros c k Hk. apply lookup_snoc_Some in Hk as [[_ Hk] | [-> <-]].
    + by apply (wf_mro _ Hwf c k).
    + simpl. by exists m.
  - intros c k b Hk Hb. apply lookup_snoc_Some in Hk as [[Hc Hk] | [-> <-]].
    + destruct (wf_bases _ Hwf c k b Hk Hb) as [Hlt Hsub]. split; [done|].
      rewrite !column_names_app by (done || lia). done.
    + simpl in Hb.
      pose proof (proj1 (Forall_forall _ _) Hbases b Hb) as Hlt.
      split; [done|]. rewrite column_names_app by done.
      rewrite (column_names_new _ _ m names);
        [|done|by simpl; rewrite lookup_insert_eq].
      intros n Hn. apply Hnames. left. apply elem_of_union_list.
      exists (column_names st b). split; [|done].
      apply list_elem_of_fmap. exists b. split; [done|].
      destruct bases as [|b0 bases]; [|done].
      apply list_elem_of_singleton in Hb as ->.
      unfold column_names, class_attr in Hn.
      rewrite (wf_object _ Hwf) in Hn. simpl in Hn.
      rewrite (wf_object _ Hwf) in Hn. simpl in Hn.
      by apply elem_of_empty in Hn.
  - intros c Hin. destruct (decide (c < length st)) as [Hlt | Hge].
    { rewrite column_names_app in Hin by done.
      by apply (wf_columns _ Hwf c). }
    destruct (decide (c = length st)) as [-> | Hne].
    + rewrite (column_names_new _ _ m names) in Hin;
        [|done|by simpl; rewrite lookup_insert_eq].
      apply Hnames in Hin as [Hin | [c0 Hc0]].
      * apply elem_of_union_list in Hin as (X & HX & Hin).
        apply list_elem_of_fmap in HX as (b & -> & _).
        by apply (wf_columns _ Hwf b).
      * by destruct (Hcols _ _ Hc0).
    + unfold column_names, class_attr in Hin.
      rewrite lookup_ge_None_2 in Hin by (rewrite length_app; simpl; lia).
      by apply elem_of_empty in Hin.
Qed.

Lemma DataSet_module_eq :
  DataSet_module dm cc = Ok (DataSet_id, [object_class; DataSet_class]).
Proof. vm_compute. reflexivity. Qed.

Lemma wf_store_module : wf_store [object_class; DataSet_class].
Proof.
  constructor.
  - done.
  - exists DataSet_class. by vm_compute.
  - intros [|[|c]] k Hk Hc; try done. injection Hk as <-.
    split; [done|]. exists ∅. by vm_compute.
  - intros [|[|c]] k Hk; try done; injection Hk as <-.
    + exists []. repeat split; constructor.
    + exists [object_id]. split; [done|]. split.
      * repeat constructor.
      * apply NoDup_singleton.
  - intros [|[|c]] k b Hk Hb; try done; injection Hk as <-.
    + by apply elem_of_nil in Hb.
    + apply list_elem_of_singleton in Hb as ->. split; [unfold object_id; lia|].
      by vm_compute.
  - intros c.
    assert (E : column_names [object_class; DataSet_class] c = ∅).
    { destruct c as [|[|c]]; [by vm_compute..|done]. }
    rewrite E. apply not_elem_of_empty.
Qed.

Lemma reachable_wf (st : store) : reachable dm cc st -> wf_store st.
Proof.
  induction 1 as [ds st H | st cname bases dict_ T st' _ IH H].
  - rewrite DataSet_module_eq in H. injection H as _ <-.
    apply wf_store_module.
  - by eapply wf_store_new.
Qed.

Lemma bind_Ok (c : Column) (n : string) (descr : BoundColumnDescr) :
  bind dm cc c n = Ok descr ->
  descr_dtype descr = col_dtype c /\ descr_name descr = n
  /\ (forall v, col_missing_value c = Given v ->
        descr_missing_value descr = v)
  /\ (col_missing_value c = NotSpecified ->
      dm (col_dtype c) = Some (descr_missing_value descr)).
Proof.
  unfold bind, BoundColumnDescr_init, validate_dtype.
  destruct c as [d [|v]]; simpl.
  - destruct (dm d) as [v|]; [|done]. intros [= <-]. simpl.
    repeat split; done.
  - destruct (cc v d); [|done]. intros [= <-]. simpl.
    repeat split; try done. by intros ? [= <-].
Qed.

Lemma bind_columns_succeeds (items : list (string * pyobj))
    (d : gmap string pyobj) (names : gset string) :
  (forall n c, (n, OColumn c) ∈ items ->
               n <> "columns" /\ is_ok (bind dm cc c n) = true) ->
  is_ok (bind_columns dm cc items d names) = true.
Proof.
  revert d names. induction items as [|[k o] items IH]; intros d names H.
  - done.
  - assert (H' : forall n c, (n, OColumn c) ∈ items ->
                   n <> "columns" /\ is_ok (bind dm cc c n) = true).
    { intros n c Hc. apply H. by apply elem_of_cons; right. }
    destruct o as [v|c|dd|s|b|l]; simpl; try by apply IH.
    destruct (H k c (proj2 (elem_of_cons _ _ _) (or_introl eq_refl)))
      as [Hk Hb].
    destruct (bind dm cc c k); [simpl|done..].
    unfold class_setattr. rewrite bool_decide_eq_false_2 by done.
    by apply IH.
Qed.

Lemma ancestor_column_names (st : store) (c a : type_id) :
  wf_store st -> ancestor st c a ->
  column_names st a ⊆ column_names st c.
Proof.
  intros Hwf. induction 1 as [c a (k & Hk & Hb) | c b a (k & Hk & Hb) _ IH].
  - by apply (wf_bases _ Hwf c k a).
  - etrans; [exact IH|]. by apply (wf_bases _ Hwf c k b).
Qed.

(** ** Accessing a field *)

Lemma mro_lookup_elem (st : store) (mro : list type_id) (c : type_id)
    (k : pyclass) (n : string) (o : pyobj) :
  c ∈ mro -> st !! c = Some k -> cls_dict k !! n = Some o ->
  is_Some (mro_lookup st mro n).
Proof.
  intros Hc Hk Ho. induction mro as [|x mro IH]; [by apply elem_of_nil in Hc|].
  rewrite mro_lookup_cons.
  destruct (st !! x ≫= (fun k => cls_dict k !! n)) eqn:Hx; [eauto|].
  apply elem_of_cons in Hc as [-> | Hc]; [|by apply IH].
  rewrite Hk in Hx. simpl in Hx. congruence.
Qed.

Lemma mro_lookup_skip (st : store) (pre rest : list type_id) (n : string) :
  (forall c k, c ∈ pre -> st !! c = Some k -> cls_dict k !! n = None) ->
  mro_lookup st (pre ++ rest)%list n = mro_lookup st rest n.
Proof.
  intros H. induction pre as [|c pre IH]; [done|].
  change ((c :: pre) ++ rest)%list with (c :: (pre ++ rest))%list.
  rewrite mro_lookup_cons.
  destruct (st !! c) as [k|] eqn:Hk; simpl.
  - rewrite (H c k); [|by apply elem_of_cons; left|done].
    apply IH. intros c' k' Hc'. apply H. by apply elem_of_cons; right.
  - apply IH. intros c' k' Hc'. apply H. by apply elem_of_cons; right.
Qed.

Lemma getattr_plain (st : store) (T : type_id) (k : pyclass) (n : string)
    (o : pyobj) (fuel : nat) :
  st !! T = Some k -> n <> "columns" ->
  mro_lookup st (cls_mro k) n = Some o ->
  (forall d, o <> ODescr d) ->
  getattr (S fuel) st T n = Ok o.
Proof.
  intros Hk Hn Ho Hd. rewrite getattr_eq, Hk.
  rewrite bool_decide_eq_false_2, andb_false_r by done. rewrite Ho.
  destruct o; try done. by destruct (Hd d).
Qed.

Lemma getattr_field (st : store) (T : type_id) (k : pyclass) (n : string)
    (d : BoundColumnDescr) (dom : pyobj) (fuel : nat) :
  st !! T = Some k -> n <> "columns" ->
  mro_lookup st (cls_mro k) n = Some (ODescr d) ->
  getattr fuel st T "domain" = Ok dom ->
  getattr (S fuel) st T n
  = Ok (OBound (mkBound (mkTerm dom (descr_dtype d) (descr_missing_value d))
                  T (descr_name d))).
Proof.
  intros Hk Hn Ho Hdom. rewrite getattr_eq, Hk.
  rewrite bool_decide_eq_false_2, andb_false_r by done. rewrite Ho.
  unfold BoundColumnDescr_get, BoundColumn_new. by rewrite Hdom.
Qed.

Lemma schema_type_domain (st : store) (T : type_id) :
  wf_store st -> schema_type st T ->
  exists dom, forall fuel, getattr (S fuel) st T "domain" = Ok dom.
Proof.
  intros Hwf (k & Hk & HDS & Hnd).
  destruct (wf_DataSet _ Hwf) as (kd & Hkd & _ & Hdom).
  destruct (mro_lookup_elem _ _ _ _ _ _ HDS Hkd Hdom) as [dom Hlook].
  exists dom. intros fuel. apply (getattr_plain _ _ k); try done.
  intros d ->. apply (Hnd d). unfold class_attr. by rewrite Hk.
Qed.

Lemma class_attr_mro (st : store) (T : type_id) (k : pyclass) (n : string) :
  st !! T = Some k -> class_attr st T n = mro_lookup st (cls_mro k) n.
Proof. intros Hk. unfold class_attr. by rewrite Hk. Qed.

(** ** Classes never change once defined *)

Lemma rmapM_ext {A B : Type} (f g : A -> result B) (l : list A) :
  (forall a, f a = g a) -> rmapM f l = rmapM g l.
Proof.
  intros Hfg. induction l as [|a l IH]; [done|].
  by rewrite !rmapM_cons, Hfg, IH.
Qed.

Lemma getattr_app (st ext : store) (fuel : nat) (c : type_id) (n : string) :
  wf_store st -> c < length st ->
  getattr fuel (st ++ ext)%list c n = getattr fuel st c n.
Proof.
  intros Hwf Hc. revert n. induction fuel as [|fuel IH]; intros n; [done|].
  rewrite !getattr_eq, lookup_app_l by done.
  destruct (st !! c) as [k|] eqn:Hk; [|done].
  rewrite (mro_lookup_app st ext) by by eapply wf_mro_bound.
  destruct (cls_meta k && bool_decide (n = "columns")).
  - unfold DataSetMeta_columns. rewrite IH.
    destruct (getattr fuel st c "_column_names") as [[]| |]; try done.
    simpl. by rewrite (rmapM_ext _ (fun colname => getattr fuel st c colname)).
  - destruct (mro_lookup st (cls_mro k) n) as [[]|]; try done.
    unfold BoundColumnDescr_get, BoundColumn_new. by rewrite IH.
Qed.

(** C1: two bound columns, the second possibly built after more classes
    have been defined, have the same identity key exactly when they agree
    on dtype, missing value, dataset and name.  The other attributes add
    nothing: the domain is read from the dataset, and mask, inputs and
    extra_input_rows are class attributes. *)
Theorem C1_identity_is_the_tuple (st ext : store) (f1 f2 : nat)
    (d1 d2 : dtype) (mv1 mv2 : pyval) (o1 o2 : type_id) (n1 n2 : string)
    (b1 b2 : BoundColumn) :
  reachable dm cc st ->
  BoundColumn_new (getattr f1 st) d1 mv1 o1 n1 = Ok b1 ->
  BoundColumn_new (getattr f2 (st ++ ext)%list) d2 mv2 o2 n2 = Ok b2 ->
  (identity b1 = identity b2 <->
   (dtype_of b1, missing_value b1, dataset b1, name b1)
   = (dtype_of b2, missing_value b2, dataset b2, name b2))
  /\ (dataset b1 = dataset b2 -> domain b1 = domain b2)
  /\ mask_of b1 = mask_of b2
  /\ inputs_of b1 = inputs_of b2
  /\ extra_input_rows_of b1 = extra_input_rows_of b2.
Proof.
  intros Hreach H1 H2. pose proof (reachable_wf _ Hreach) as Hwf.
  apply BoundColumn_new_Ok in H1 as (dom1 & Hd1 & ->).
  apply BoundColumn_new_Ok in H2 as (dom2 & Hd2 & ->).
  unfold identity, static_identity, Term_static_identity, dtype_of,
    missing_value, dataset, name, domain. simpl.
  assert (Hdom : o1 = o2 -> dom1 = dom2).
  { intros <-. destruct (getattr_Ok_class _ _ _ _ _ Hd1) as [k Hk].
    rewrite getattr_app in Hd2 by (done || by eapply lookup_lt_Some).
    by apply (getattr_det _ _ _ _ _ _ _ Hd1 Hd2). }
  repeat split; try done.
  - intros H. by injection H as _ -> -> -> ->.
  - intros H. injection H as -> -> Ho ->. by rewrite (Hdom Ho), Ho.
Qed.

(** C5: a field declared on [Base] and reached from a proper subclass
    [Derived] that does not redeclare it resolves, through the same binding
    descriptor, to two bound columns with different datasets, hence with
    different identity keys. *)
Theorem C5_owner_sensitivity (st : store) (Base Derived : type_id)
    (kb kd : pyclass) (f : string) (d : BoundColumnDescr)
    (pre post : list type_id) :
  reachable dm cc st ->
  schema_type st Base -> schema_type st Derived ->
  f ∈ column_names st Base ->
  st !! Base = Some kb -> cls_dict kb !! f = Some (ODescr d) ->
  st !! Derived = Some kd -> Derived <> Base ->
  cls_mro kd = (pre ++ Base :: post)%list ->
  (forall c k, c ∈ pre -> st !! c = Some k -> cls_dict k !! f = None) ->
  exists bB bD,
    (forall fuel,
        getattr (S (S fuel)) st Base f = Ok (OBound bB)
        /\ getattr (S (S fuel)) st Derived f = Ok (OBound bD)
        /\ BoundColumnDescr_get (getattr (S fuel) st) d Base = Ok bB
        /\ BoundColumnDescr_get (getattr (S fuel) st) d Derived = Ok bD)
    /\ dataset bB = Base /\ dataset bD = Derived
    /\ identity bB <> identity bD.
Proof.
  intros Hreach HsB HsD Hfield Hkb Hfd Hkd Hne Hmro Hpre.
  pose proof (reachable_wf _ Hreach) as Hwf.
  assert (Hf : f <> "columns").
  { intros ->. by apply (wf_columns _ Hwf Base). }
  destruct (schema_type_domain _ _ Hwf HsB) as [domB HdomB].
  destruct (schema_type_domain _ _ Hwf HsD) as [domD HdomD].
  assert (HlookB : mro_lookup st (cls_mro kb) f = Some (ODescr d)).
  { rewrite <- (class_attr_mro _ _ _ _ Hkb).
    by apply (class_attr_own _ _ kb). }
  assert (HlookD : mro_lookup st (cls_mro kd) f = Some (ODescr d)).
  { rewrite Hmro, mro_lookup_skip by done.
    rewrite mro_lookup_cons, Hkb. simpl. by rewrite Hfd. }
  eexists _, _. split; [|split; [|split]].
  - intros fuel. split; [|split; [|split]].
    + by apply (getattr_field _ _ kb _ d domB).
    + by apply (getattr_field _ _ kd _ d domD).
    + apply BoundColumn_new_Ok. eauto.
    + apply BoundColumn_new_Ok. eauto.
  - done.
  - done.
  - unfold identity, static_identity, dataset. simpl. congruence.
Qed.

Lemma DataSetMeta_columns_Ok ga (self : type_id) (o : pyobj) :
  DataSetMeta_columns ga self = Ok o -> exists l, o = OFrozenset l.
Proof.
  unfold DataSetMeta_columns. intros H. inv_bind H.
  destruct a; try discriminate. inv_bind H. injection H as <-. eauto.
Qed.

(** C10: the bound column a field access on [T] produces carries the
    domain that [T.domain] gives at that moment; when no class between [T]
    and [DataSet] sets [domain], that is the [None] of [DataSet]. *)
Theorem C10_domain_of_the_owner (st : store) (T : type_id) (k : pyclass)
    (f : string) (d : BoundColumnDescr) :
  reachable dm cc st ->
  st !! T = Some k -> f ∈ column_names st T ->
  class_attr st T f = Some (ODescr d) ->
  (forall fuel b,
      getattr (S fuel) st T f = Ok (OBound b) ->
      getattr fuel st T "domain" = Ok (domain b))
  /\ (forall pre post,
        cls_mro k = (pre ++ DataSet_id :: post)%list ->
        (forall c kc, c ∈ pre -> st !! c = Some kc ->
                      cls_dict kc !! "domain" = None) ->
        (forall fuel b,
            getattr fuel st T f = Ok (OBound b) -> domain b = OVal VNone)
        /\ exists b, forall fuel,
             getattr (S (S fuel)) st T f = Ok (OBound b)).
Proof.
  intros Hreach Hk Hfield Hd. rewrite (class_attr_mro _ _ _ _ Hk) in Hd.
  pose proof (reachable_wf _ Hreach) as Hwf.
  assert (Hf : f <> "columns").
  { intros ->. by apply (wf_columns _ Hwf T). }
  assert (Hdomain : forall fuel b,
             getattr (S fuel) st T f = Ok (OBound b) ->
             getattr fuel st T "domain" = Ok (domain b)).
  { intros fuel b H. rewrite getattr_eq, Hk in H.
    destruct (cls_meta k && bool_decide (f = "columns")).
    - by apply DataSetMeta_columns_Ok in H as [l ?].
    - rewrite Hd in H. inv_bind H. injection H as <-.
      by apply BoundColumn_new_Ok in Ha as (dom & Hdom & ->). }
  split; [done|]. intros pre post Hmro Hpre.
  destruct (wf_DataSet _ Hwf) as (kd & Hkd & _ & Hdom).
  assert (Hlook : mro_lookup st (cls_mro k) "domain" = Some (OVal VNone)).
  { rewrite Hmro, mro_lookup_skip by done.
    rewrite mro_lookup_cons, Hkd. simpl. by rewrite Hdom. }
  assert (Hnone : forall fuel, getattr (S fuel) st T "domain"
                               = Ok (OVal VNone)).
  { intros fuel. by apply (getattr_plain _ _ k). }
  split.
  - intros [|fuel] b H; [discriminate|].
    apply Hdomain in H.
    by apply (getattr_det _ _ _ _ _ _ _ H (Hnone 0)).
  - eexists. intros fuel.
    by apply (getattr_field _ _ k _ d).
Qed.

(** C2: a column with a dtype and a compatible missing value, bound to a
    name and resolved against a schema type, gives a bound column carrying
    exactly that dtype, missing value, owner and name. *)
Theorem C2_bind_then_resolve (d : dtype) (v : pyval) (n : string)
    (st : store) (owner : type_id) :
  cc v d = true ->
  reachable dm cc st -> schema_type st owner ->
  exists descr b,
    bind dm cc (mkColumn d (Given v)) n = Ok descr
    /\ (forall fuel,
          BoundColumnDescr_get (getattr (S fuel) st) descr owner = Ok b)
    /\ dtype_of b = d /\ missing_value b = v
    /\ dataset b = owner /\ name b = n.
Proof.
  intros Hcc Hreach Hs.
  destruct (schema_type_domain _ _ (reachable_wf _ Hreach) Hs) as [dom Hdom].
  exists (mkDescr d v n), (mkBound (mkTerm dom d v) owner n).
  split; [|split; [|done]].
  - unfold bind, BoundColumnDescr_init, validate_dtype. simpl.
    by rewrite Hcc.
  - intros fuel. apply BoundColumn_new_Ok. eauto.
Qed.

(** C9: against an owner that is a schema type, resolving any binding
    descriptor builds the bound column from the descriptor as it is and
    raises nothing, and so does the access to a field that triggers it. *)
Theorem C9_resolve_raises_nothing (st : store) (owner : type_id)
    (descr : BoundColumnDescr) :
  reachable dm cc st -> schema_type st owner ->
  exists dom,
    let b := mkBound (mkTerm dom (descr_dtype descr)
                        (descr_missing_value descr)) owner (descr_name descr)
    in
    (forall fuel,
        BoundColumnDescr_get (getattr (S fuel) st) descr owner = Ok b)
    /\ (forall fuel n, n ∈ column_names st owner ->
          class_attr st owner n = Some (ODescr descr) ->
          getattr (S (S fuel)) st owner n = Ok (OBound b)).
Proof.
  intros Hreach Hs. pose proof (reachable_wf _ Hreach) as Hwf.
  destruct (schema_type_domain _ _ Hwf Hs) as [dom Hdom].
  exists dom. cbv zeta. split.
  - intros fuel. apply BoundColumn_new_Ok. eauto.
  - intros fuel n Hn Hd. destruct Hs as (k & Hk & _).
    rewrite (class_attr_mro _ _ _ _ Hk) in Hd.
    apply (getattr_field _ _ k); try done.
    intros ->. by apply (wf_columns _ Hwf owner).
Qed.

(** ** Class definitions that succeed *)

Lemma DataSetMeta_new_succeeds (st : store) (cname : string)
    (bases : list type_id) (dict_ : gmap string pyobj) :
  wf_store st ->
  is_ok (type_new st cname bases dict_) = true ->
  (forall n c, dict_ !! n = Some (OColumn c) ->
               n <> "columns" /\ is_ok (bind dm cc c n) = true) ->
  is_ok (DataSetMeta_new dm cc st cname bases dict_) = true.
Proof.
  intros Hwf Htype Hcols. unfold DataSetMeta_new.
  destruct (type_new st cname bases dict_) as [[T st1]| |] eqn:Ht;
    [simpl|done..].
  apply type_new_Ok in Ht as (-> & Hbases & m & Hm & Hnd & ->).
  rewrite (inherited_column_names_wf _ _ _ Hwf (bases_in_store _ _ Hbases)).
  simpl.
  pose proof (bind_columns_succeeds (map_to_list dict_) dict_
                (⋃ (column_names st <$> bases))) as Hb.
  destruct (bind_columns dm cc (map_to_list dict_) dict_ _)
    as [[d names]| |]; simpl.
  - by rewrite lookup_last.
  - apply Hb. intros n c Hc. apply Hcols. by apply elem_of_map_to_list.
  - apply Hb. intros n c Hc. apply Hcols. by apply elem_of_map_to_list.
Qed.

(** With a single base the bases always linearise. *)
Lemma type_new_one_base (st : store) (cname : string) (B : type_id)
    (dict_ : gmap string pyobj) :
  wf_store st -> is_Some (st !! B) ->
  is_ok (type_new st cname [B] dict_) = true.
Proof.
  intros Hwf [kb Hkb]. unfold type_new.
  change (bases_or_object [B]) with [B].
  destruct (wf_mro _ Hwf _ _ Hkb) as (rest & Hmro & Hlt & Hnd).
  assert (HB : B ∉ rest).
  { intros Hin. apply (proj1 (Forall_forall _ _) Hlt) in Hin.
    simpl in Hin. lia. }
  assert (Hm : mapM (fun b => cls_mro <$> st !! b) [B] = Some [B :: rest]).
  { apply mapM_Some. repeat constructor. by rewrite Hkb, <- Hmro. }
  rewrite Hm.
  change ([B :: rest] ++ [[B]])%list with [B :: rest; [B]].
  by rewrite c3_merge_one_base.
Qed.

(** C7: a class body may declare again a field name that a base already
    has.  The definition goes through whenever the bases linearise and the
    columns of the body are valid and assignable, and the field then
    resolves on the new class to a bound column with the dtype of the new
    declaration. *)
Theorem C7_redeclared_field_shadows (st : store) (cname : string)
    (bases : list type_id) (dict_ : gmap string pyobj) (Base : type_id)
    (a : string) (c : Column) :
  reachable dm cc st ->
  Base ∈ bases -> a ∈ column_names st Base -> a <> "_column_names" ->
  dict_ !! a = Some (OColumn c) ->
  is_ok (type_new st cname bases dict_) = true ->
  (forall n c', dict_ !! n = Some (OColumn c') ->
                n <> "columns" /\ is_ok (bind dm cc c' n) = true) ->
  exists Derived st',
    DataSetMeta_new dm cc st cname bases dict_ = Ok (Derived, st')
    /\ a ∈ column_names st' Derived
    /\ (schema_type st' Derived ->
        exists b,
          dtype_of b = col_dtype c /\ dataset b = Derived /\ name b = a
          /\ forall fuel,
               getattr (S (S fuel)) st' Derived a = Ok (OBound b)).
Proof.
  intros Hreach _ _ Hnames Ha Htype Hcols.
  destruct (Hcols _ _ Ha) as [Hcol _].
  pose proof (reachable_wf _ Hreach) as Hwf.
  pose proof (DataSetMeta_new_succeeds _ _ _ _ Hwf Htype Hcols) as Hok.
  destruct (DataSetMeta_new dm cc st cname bases dict_)
    as [[Derived st']| |] eqn:Hnew; try done.
  exists Derived, st'. split; [done|].
  pose proof (wf_store_new _ _ _ _ _ _ Hwf Hnew) as Hwf'.
  destruct (DataSetMeta_new_Ok _ _ _ _ _ _ Hwf Hnew)
    as (-> & Hbases & m & d & names & Hm & Hnd & Hbind & ->).
  apply bind_columns_Ok in Hbind as (Hin & Hdescr & _);
    [|apply NoDup_fst_map_to_list].
  destruct (Hdescr a c) as (_ & descr & Hb & Hd);
    [by apply elem_of_map_to_list|].
  apply bind_Ok in Hb as (Hdt & Hdn & _). split.
  - rewrite (column_names_new _ _ m names);
      [|done|by simpl; rewrite lookup_insert_eq].
    apply Hin. right. exists c. by apply elem_of_map_to_list.
  - intros Hs. destruct (schema_type_domain _ _ Hwf' Hs) as [dom Hdom].
    eexists. split; [|split; [|split]]; cycle 3.
    + intros fuel. eapply getattr_field; [apply lookup_last|done| |done].
      cbn [cls_mro]. rewrite mro_lookup_cons, lookup_last. simpl.
      by rewrite lookup_insert_ne, Hd.
    + done.
    + done.
    + done.
Qed.

(** ** The columns of a class *)

Lemma columns_elements (st : store) (T : type_id) (k : pyclass)
    (dom : pyobj) (ns : list string) :
  st !! T = Some k ->
  (forall fuel, getattr (S fuel) st T "domain" = Ok dom) ->
  (forall n, n ∈ ns ->
     n <> "columns"
     /\ exists d, mro_lookup st (cls_mro k) n = Some (ODescr d)
                  /\ descr_name d = n) ->
  exists l : list BoundColumn,
    (forall fuel,
        rmapM (fun colname => getattr (S (S fuel)) st T colname) ns
        = Ok (OBound <$> l))
    /\ name <$> l = ns /\ Forall (fun b => dataset b = T) l.
Proof.
  intros Hk Hdom. induction ns as [|n ns IH]; intros Hns.
  - by exists [].
  - destruct IH as (l & Hl & Hnames & Hown).
    { intros n' Hn'. apply Hns. by apply elem_of_cons; right. }
    destruct (Hns n) as (Hn & d & Hd & Hdn); [by apply elem_of_cons; left|].
    exists (mkBound (mkTerm dom (descr_dtype d) (descr_missing_value d)) T
              (descr_name d) :: l).
    split; [|split].
    + intros fuel. rewrite rmapM_cons.
      rewrite (getattr_field _ _ k _ d dom) by done.
      by rewrite Hl.
    + rewrite fmap_cons, Hnames. by f_equal.
    + by constructor.
Qed.

Lemma columns_view (st : store) (T : type_id) (k : pyclass) (dom : pyobj)
    (s : gset string) :
  st !! T = Some k -> cls_meta k = true ->
  mro_lookup st (cls_mro k) "_column_names" = Some (ONames s) ->
  (forall fuel, getattr (S fuel) st T "domain" = Ok dom) ->
  (forall n, n ∈ s ->
     n <> "columns"
     /\ exists d, mro_lookup st (cls_mro k) n = Some (ODescr d)
                  /\ descr_name d = n) ->
  exists l : list BoundColumn,
    (forall fuel,
        getattr (S (S (S fuel))) st T "columns"
        = Ok (OFrozenset (OBound <$> l)))
    /\ name <$> l = elements s
    /\ Forall (fun b => dataset b = T) l
    /\ NoDup l /\ length l = size s.
Proof.
  intros Hk Hmeta Hs Hdom Hns.
  destruct (columns_elements st T k dom (elements s) Hk Hdom)
    as (l & Hl & Hnames & Hown).
  { intros n Hn. apply Hns. by apply elem_of_elements. }
  exists l. split; [|split; [done|split; [done|split]]].
  - intros fuel. rewrite getattr_eq, Hk, Hmeta.
    rewrite bool_decide_eq_true_2 by done. simpl andb. cbv iota.
    unfold DataSetMeta_columns.
    rewrite (getattr_plain _ _ k _ (ONames s)) by done. cbn [rbind].
    by rewrite Hl.
  - apply (NoDup_fmap_1 name). rewrite Hnames. apply NoDup_elements.
  - rewrite <- (length_fmap name), Hnames. done.
Qed.

Lemma column_names_own (st : store) (T : type_id) (k : pyclass) :
  wf_store st -> st !! T = Some k -> T <> object_id ->
  cls_meta k = true
  /\ mro_lookup st (cls_mro k) "_column_names"
     = Some (ONames (column_names st T)).
Proof.
  intros Hwf Hk HT. destruct (wf_meta _ Hwf _ _ Hk HT) as (Hmeta & s & Hs).
  split; [done|]. rewrite <- (class_attr_mro _ _ _ _ Hk).
  unfold column_names. by rewrite (class_attr_own _ _ _ _ _ Hwf Hk Hs).
Qed.

(** C6: the field names of a new class are the names its body declares
    together with the field names of all its ancestors.  When each of these
    names still resolves on the class to the binding descriptor of that
    name, the columns of the class are one bound column per field name,
    each with the class as its dataset. *)
Theorem C6_field_names_and_columns (st : store) (cname : string)
    (bases : list type_id) (dict_ : gmap string pyobj) (T : type_id)
    (st' : store) :
  reachable dm cc st ->
  DataSetMeta_new dm cc st cname bases dict_ = Ok (T, st') ->
  (forall n,
      n ∈ column_names st' T <->
      declared dict_ n
      \/ exists a, ancestor st' T a /\ n ∈ column_names st' a)
  /\ (schema_type st' T ->
      (forall n, n ∈ column_names st' T ->
         exists d, class_attr st' T n = Some (ODescr d)
                   /\ descr_name d = n) ->
      exists l : list BoundColumn,
        (forall fuel,
            getattr (S (S (S fuel))) st' T "columns"
            = Ok (OFrozenset (OBound <$> l)))
        /\ name <$> l = elements (column_names st' T)
        /\ Forall (fun b => dataset b = T) l
        /\ NoDup l /\ length l = size (column_names st' T)).
Proof.
  intros Hreach Hnew. pose proof (reachable_wf _ Hreach) as Hwf.
  pose proof (wf_store_new _ _ _ _ _ _ Hwf Hnew) as Hwf'. split.
  - destruct (DataSetMeta_new_Ok _ _ _ _ _ _ Hwf Hnew)
      as (-> & Hbases & m & d & names & Hm & Hnd & Hbind & ->).
    apply bind_columns_Ok in Hbind as (Hin & _ & _);
      [|apply NoDup_fst_map_to_list].
    intros n. split.
    + rewrite (column_names_new _ _ m names);
        [|done|by simpl; rewrite lookup_insert_eq].
      intros Hn. apply Hin in Hn as [Hn | [c Hc]].
      * right. apply elem_of_union_list in Hn as (X & HX & Hn).
        apply list_elem_of_fmap in HX as (b & -> & Hb). exists b.
        assert (Hb' : b ∈ bases_or_object bases).
        { destruct bases; [by apply elem_of_nil in Hb | done]. }
        split.
        -- apply tc_once. eexists. split; [apply lookup_last|done].
        -- rewrite column_names_app; [done..|].
           by apply (proj1 (Forall_forall _ _) Hbases).
      * left. exists c. by apply elem_of_map_to_list.
    + intros [[c Hc] | (a & Ha & Hn)].
      * rewrite (column_names_new _ _ m names);
          [|done|by simpl; rewrite lookup_insert_eq].
        apply Hin. right. exists c. by apply elem_of_map_to_list.
      * by apply (ancestor_column_names _ _ _ Hwf' Ha).
  - intros Hs Hres. destruct (schema_type_domain _ _ Hwf' Hs) as [dom Hdom].
    destruct Hs as (k & Hk & _).
    assert (HT : T <> object_id).
    { destruct (DataSetMeta_new_Ok _ _ _ _ _ _ Hwf Hnew) as (-> & _).
      pose proof (lookup_lt_Some _ _ _ (wf_object _ Hwf)).
      unfold object_id in *. lia. }
    destruct (column_names_own _ _ _ Hwf' Hk HT) as [Hmeta Hs].
    apply (columns_view _ _ k dom); try done.
    intros n Hn. destruct (Hres n Hn) as (dd & Hd & Hdn). split.
    + intros ->. by apply (wf_columns _ Hwf' T).
    + exists dd. by rewrite <- (class_attr_mro _ _ _ _ Hk).
Qed.

(** ** When a class definition fails *)

Lemma rbind_Raise {A B : Type} (r : result A) (k : A -> result B) (e : exn) :
  rbind r k = Raise e ->
  r = Raise e \/ exists a, r = Ok a /\ k a = Raise e.
Proof.
  destruct r as [a| |]; simpl; intros H; [eauto | left; congruence | done].
Qed.

Lemma rmapM_Raise {A B : Type} (f : A -> result B) (l : list A) (e : exn) :
  rmapM f l = Raise e -> exists a, a ∈ l /\ f a = Raise e.
Proof.
  induction l as [|a l IH]; [done|]. rewrite rmapM_cons. intros H.
  apply rbind_Raise in H as [H | (b & Hb & H)].
  - exists a. split; [by apply elem_of_cons; left | done].
  - apply rbind_Raise in H as [H | (bs & Hbs & H)]; [|done].
    destruct (IH H) as (a' & Ha' & Hfa'). exists a'.
    split; [by apply elem_of_cons; right | done].
Qed.

Lemma bind_Raise_no_default (c : Column) (n msg : string) :
  bind dm cc c n = Raise (NoDefaultMissingValue msg) ->
  col_missing_value c = NotSpecified
  /\ dm (col_dtype c) = None
  /\ msg = no_missing_value_message (col_dtype c) n.
Proof.
  unfold bind, BoundColumnDescr_init, validate_dtype.
  destruct c as [d [|v]]; simpl.
  - destruct (dm d); [done|]. by intros [= <-].
  - by destruct (cc v d).
Qed.

Lemma bind_columns_Raise_no_default (items : list (string * pyobj))
    (d : gmap string pyobj) (names : gset string) (msg : string) :
  bind_columns dm cc items d names = Raise (NoDefaultMissingValue msg) ->
  exists n c, (n, OColumn c) ∈ items
              /\ bind dm cc c n = Raise (NoDefaultMissingValue msg).
Proof.
  revert d names. induction items as [|[k o] items IH]; intros d names H.
  - done.
  - assert (Hrest : forall d' names',
               bind_columns dm cc items d' names'
               = Raise (NoDefaultMissingValue msg) ->
               exists n c, (n, OColumn c) ∈ (k, o) :: items
                 /\ bind dm cc c n = Raise (NoDefaultMissingValue msg)).
    { intros d' names' H'. destruct (IH _ _ H') as (n & c & Hin & Hb).
      exists n, c. split; [by apply elem_of_cons; right | done]. }
    destruct o as [v|c|dd|s|b|l]; try by eapply Hrest.
    simpl in H. apply rbind_Raise in H as [H | (descr & _ & H)].
    + exists k, c. split; [by apply elem_of_cons; left | done].
    + apply rbind_Raise in H as [H | (d' & _ & H)]; [|by eapply Hrest].
      unfold class_setattr in H. by destruct (bool_decide (k = "columns")).
Qed.

(** A class definition that ends in [NoDefaultMissingValue] always blames a
    column of the very body being defined: one declared without a missing
    value, of a dtype that has no default, and the message carries that
    column's name and dtype. *)
Theorem definition_error_names_a_field (st : store) (cname : string)
    (bases : list type_id) (dict_ : gmap string pyobj) (msg : string) :
  DataSetMeta_new dm cc st cname bases dict_
  = Raise (NoDefaultMissingValue msg) ->
  exists n c,
    dict_ !! n = Some (OColumn c)
    /\ col_missing_value c = NotSpecified
    /\ dm (col_dtype c) = None
    /\ msg = no_missing_value_message (col_dtype c) n
    /\ contains n msg /\ contains (dtype_name (col_dtype c)) msg.
Proof.
  unfold DataSetMeta_new. intros H.
  apply rbind_Raise in H as [H | ([T st1] & _ & H)].
  { unfold type_new in H. destruct (mapM _ _); [|done].
    by destruct (c3_merge _ _). }
  apply rbind_Raise in H as [H | (inh & _ & H)].
  { unfold inherited_column_names in H.
    apply rbind_Raise in H as [H | (sets & _ & H)]; [|done].
    apply rmapM_Raise in H as (b & _ & H). unfold base_column_names in H.
    by destruct (class_attr st1 b "_column_names") as [[]|]. }
  apply rbind_Raise in H as [H | ([d names] & _ & H)].
  - apply bind_columns_Raise_no_default in H as (n & c & Hin & Hb).
    apply elem_of_map_to_list in Hin.
    apply bind_Raise_no_default in Hb as (Hmv & Hdm & ->).
    exists n, c. repeat split; try done; apply message_names_column.
  - by destruct (st1 !! T).
Qed.


(** ** What a class definition leaves behind *)

(** Defining a class gives it a fresh identity and changes nothing for the
    classes that exist already: their class objects are the same and every
    attribute access on them, [columns] included, answers as before. *)
Theorem definition_keeps_existing_classes (st : store) (cname : string)
    (bases : list type_id) (dict_ : gmap string pyobj) (T : type_id)
    (st' : store) :
  reachable dm cc st ->
  DataSetMeta_new dm cc st cname bases dict_ = Ok (T, st') ->
  st !! T = None
  /\ forall c, c < length st ->
       st' !! c = st !! c
       /\ forall fuel n, getattr fuel st' c n = getattr fuel st c n.
Proof.
  intros Hreach Hnew. pose proof (reachable_wf _ Hreach) as Hwf.
  destruct (DataSetMeta_new_Ok _ _ _ _ _ _ Hwf Hnew)
    as (-> & _ & m & d & names & _ & _ & _ & ->).
  split; [by apply lookup_ge_None_2|]. intros c Hc. split.
  - by apply lookup_app_l.
  - intros fuel n. by apply getattr_app.
Qed.

Lemma mro_lookup_Some (st : store) (mro : list type_id) (n : string)
    (o : pyobj) :
  mro_lookup st mro n = Some o ->
  exists c k, c ∈ mro /\ st !! c = Some k /\ cls_dict k !! n = Some o.
Proof.
  induction mro as [|c mro IH]; [done|]. rewrite mro_lookup_cons.
  destruct (st !! c) as [k|] eqn:Hk; simpl.
  - destruct (cls_dict k !! n) as [o'|] eqn:Ho.
    + intros [= ->]. exists c, k. split; [by apply elem_of_cons; left|done].
    + intros H. destruct (IH H) as (c' & k' & Hc' & H').
      exists c', k'. split; [by apply elem_of_cons; right|done].
  - intros H. destruct (IH H) as (c' & k' & Hc' & H').
    exists c', k'. split; [by apply elem_of_cons; right|done].
Qed.

Lemma new_class_dict (st : store) (cname : string)
    (bases : list type_id) (dict_ : gmap string pyobj) (T : type_id)
    (st' : store) :
  wf_store st ->
  DataSetMeta_new dm cc st cname bases dict_ = Ok (T, st') ->
  exists k,
    st' !! T = Some k /\ cls_name k = cname
    /\ (forall n c, dict_ !! n = Some (OColumn c) ->
          exists descr,
            bind dm cc c n = Ok descr
            /\ descr_name descr = n /\ descr_dtype descr = col_dtype c
            /\ (n <> "_column_names" ->
                cls_dict k !! n = Some (ODescr descr)))
    /\ (forall n, n <> "_column_names" ->
          (forall c, dict_ !! n <> Some (OColumn c)) ->
          cls_dict k !! n = dict_ !! n)
    /\ cls_dict k !! "_column_names" = Some (ONames (column_names st' T))
    /\ (forall n c, cls_dict k !! n <> Some (OColumn c)).
Proof.
  intros Hwf Hnew.
  destruct (DataSetMeta_new_Ok _ _ _ _ _ _ Hwf Hnew)
    as (-> & _ & m & d & names & _ & _ & Hbind & ->).
  apply bind_columns_Ok in Hbind as (_ & Hcols & Hrest);
    [|apply NoDup_fst_map_to_list].
  eexists. split; [apply lookup_last|]. split; [done|]. simpl.
  assert (Hcol : forall n c, dict_ !! n = Some (OColumn c) ->
            exists descr, bind dm cc c n = Ok descr
                          /\ d !! n = Some (ODescr descr)).
  { intros n c Hc. apply elem_of_map_to_list in Hc.
    by destruct (Hcols n c Hc) as [_ ?]. }
  assert (Hother : forall n, (forall c, dict_ !! n <> Some (OColumn c)) ->
            d !! n = dict_ !! n).
  { intros n Hn. apply Hrest. intros c Hc.
    apply elem_of_map_to_list in Hc. by apply (Hn c). }
  split; [|split; [|split]].
  - intros n c Hc. destruct (Hcol n c Hc) as (descr & Hb & Hd).
    exists descr. destruct (bind_Ok _ _ _ Hb) as (Hdt & Hdn & _).
    repeat split; try done. intros Hn. by rewrite lookup_insert_ne.
  - intros n Hn Hc. rewrite lookup_insert_ne by done. by apply Hother.
  - rewrite lookup_insert_eq.
    by rewrite (column_names_new _ _ m names);
      [|done|simpl; rewrite lookup_insert_eq].
  - intros n c Hc. apply lookup_insert_Some in Hc as [[_ Hc] | [_ Hc]]; [done|].
    destruct (dict_ !! n) as [o|] eqn:Ho.
    + destruct o as [v|c0|dd|s|b|l];
        try (rewrite Hother in Hc; [congruence|intros ? ?; congruence]).
      destruct (Hcol n c0 Ho) as (descr & _ & Hd). congruence.
    + rewrite Hother in Hc; [congruence|intros ? ?; congruence].
Qed.

(** The namespace of a freshly defined class: every [Column] of the body
    has been replaced by a descriptor that carries the attribute's name and
    the column's dtype, every other attribute of the body is there
    untouched, [_column_names] holds the field names, and no [Column] is
    left. *)
Theorem definition_binds_every_column (st : store) (cname : string)
    (bases : list type_id) (dict_ : gmap string pyobj) (T : type_id)
    (st' : store) :
  reachable dm cc st ->
  DataSetMeta_new dm cc st cname bases dict_ = Ok (T, st') ->
  exists k,
    st' !! T = Some k /\ cls_name k = cname
    /\ (forall n c, dict_ !! n = Some (OColumn c) ->
          exists descr,
            bind dm cc c n = Ok descr
            /\ descr_name descr = n /\ descr_dtype descr = col_dtype c
            /\ (n <> "_column_names" ->
                cls_dict k !! n = Some (ODescr descr)))
    /\ (forall n, n <> "_column_names" ->
          (forall c, dict_ !! n <> Some (OColumn c)) ->
          cls_dict k !! n = dict_ !! n)
    /\ cls_dict k !! "_column_names" = Some (ONames (column_names st' T))
    /\ (forall n c, cls_dict k !! n <> Some (OColumn c)).
Proof.
  intros Hreach Hnew.
  pose proof (reachable_wf _ Hreach) as Hwf.
  destruct (new_class_dict _ _ _ _ _ _ Hwf Hnew) as (k & Hk & Hrest).
  exists k. split; [exact Hk | exact Hrest].
Qed.

Lemma no_bare_column (st : store) :
  reachable dm cc st ->
  forall c k n col, st !! c = Some k -> cls_dict k !! n <> Some (OColumn col).
Proof.
  induction 1 as [ds st H | st cname bases dict_ T st' Hreach IH Hnew];
    intros c k n col Hk Hn.
  - rewrite DataSet_module_eq in H. injection H as _ <-.
    destruct c as [|[|c]]; try done; injection Hk as <-.
    + unfold object_class in Hn. simpl in Hn.
      by rewrite lookup_empty in Hn.
    + unfold DataSet_class, DataSet_dict in Hn. simpl in Hn.
      apply lookup_insert_Some in Hn as [[_ Hn] | [_ Hn]]; [done|].
      by apply lookup_singleton_Some in Hn as [_ Hn].
  - destruct (new_class_dict _ _ _ _ _ _ (reachable_wf _ Hreach) Hnew)
      as (k' & Hk' & _ & _ & _ & _ & Hnone).
    destruct (DataSetMeta_new_Ok _ _ _ _ _ _ (reachable_wf _ Hreach) Hnew)
      as (-> & _ & m & d & names & _ & _ & _ & ->).
    apply lookup_snoc_Some in Hk as [[Hc Hk] | [-> <-]].
    + by apply (IH c k n col).
    + rewrite lookup_last in Hk'. injection Hk' as <-.
      by apply (Hnone n col).
Qed.

(** Attribute access on a class never hands out an unbound [Column]: the
    metaclass has replaced every one of them at definition time. *)
Theorem access_never_yields_a_Column (st : store) (fuel : nat) (c : type_id)
    (n : string) (col : Column) :
  reachable dm cc st -> getattr fuel st c n <> Ok (OColumn col).
Proof.
  intros Hreach H. destruct fuel as [|fuel]; [done|].
  rewrite getattr_eq in H. destruct (st !! c) as [k|] eqn:Hk; [|done].
  destruct (cls_meta k && bool_decide (n = "columns")).
  - by apply DataSetMeta_columns_Ok in H as [l ?].
  - destruct (mro_lookup st (cls_mro k) n) as [o|] eqn:Ho; [|done].
    apply mro_lookup_Some in Ho as (c' & k' & _ & Hk' & Hn).
    destruct o as [v|c0|dd|s|b|l]; try done.
    + injection H as ->. by apply (no_bare_column _ Hreach c' k' n col).
    + by destruct (BoundColumnDescr_get (getattr fuel st) dd c).
Qed.

(** ** Every field name resolves *)








(** ** The columns of a schema type *)




(** ** Programs: columns are bound to the class they are read from *)

Lemma program_reachable (st : store) :
  program_store dm cc st -> reachable dm cc st.
Proof.
  induction 1 as [ds st H | st cname bases dict_ T st' _ IH _ Hnew].
  - by apply (reachable_module _ _ ds).
  - by apply (reachable_class _ _ st cname bases dict_ T).
Qed.

Lemma program_entries (st : store) :
  program_store dm cc st ->
  forall c k n o, st !! c = Some k -> cls_dict k !! n = Some o ->
                  class_entry n o.
Proof.
  induction 1 as [ds st H | st cname bases dict_ T st' Hprog IH Hbody Hnew];
    intros c k n o Hk Hn.
  - rewrite DataSet_module_eq in H. injection H as _ <-.
    destruct c as [|[|c]]; try done; injection Hk as <-.
    + unfold object_class in Hn. simpl in Hn.
      by rewrite lookup_empty in Hn.
    + unfold DataSet_class, DataSet_dict in Hn. simpl in Hn.
      apply lookup_insert_Some in Hn as [[<- <-] | [_ Hn]].
      * right. right. eauto.
      * apply lookup_singleton_Some in Hn as [_ <-]. right. left. eauto.
  - pose proof (program_reachable _ Hprog) as Hreach.
    destruct (new_class_dict _ _ _ _ _ _ (reachable_wf _ Hreach) Hnew)
      as (k' & Hk' & _ & Hcols & Hother & Hnames & _).
    destruct (DataSetMeta_new_Ok _ _ _ _ _ _ (reachable_wf _ Hreach) Hnew)
      as (-> & _ & m & d & names & _ & _ & _ & ->).
    apply lookup_snoc_Some in Hk as [[Hc Hk] | [-> <-]];
      [by apply (IH c k)|].
    rewrite lookup_last in Hk'. injection Hk' as <-.
    destruct (decide (n = "_column_names")) as [-> | Hne].
    { rewrite Hnames in Hn. injection Hn as <-. right. right. eauto. }
    destruct (dict_ !! n) as [o0|] eqn:Ho0.
    + destruct (Hbody n o0 Ho0) as [[c0 ->] | [v ->]].
      * destruct (Hcols n c0 Ho0) as (descr & _ & Hdn & _ & Hown).
        rewrite (Hown Hne) in Hn. injection Hn as <-. left. eauto.
      * rewrite (Hother n Hne) in Hn by (intros ? ?; congruence).
        rewrite Ho0 in Hn. injection Hn as <-. right. left. eauto.
    + rewrite (Hother n Hne) in Hn by (intros ? ?; congruence).
      congruence.
Qed.

Lemma program_getattr_bound (st : store) (fuel : nat) (T : type_id)
    (n : string) (b : BoundColumn) :
  program_store dm cc st ->
  getattr fuel st T n = Ok (OBound b) ->
  exists d dom,
    class_attr st T n = Some (ODescr d) /\ descr_name d = n
    /\ b = mkBound (mkTerm dom (descr_dtype d) (descr_missing_value d)) T n.
Proof.
  intros Hprog H. destruct fuel as [|fuel]; [done|].
  rewrite getattr_eq in H. destruct (st !! T) as [k|] eqn:Hk; [|done].
  destruct (cls_meta k && bool_decide (n = "columns")).
  { by apply DataSetMeta_columns_Ok in H as [l ?]. }
  destruct (mro_lookup st (cls_mro k) n) as [o|] eqn:Ho; [|done].
  pose proof Ho as Hlook.
  apply mro_lookup_Some in Ho as (c' & k' & _ & Hk' & Hn).
  destruct (program_entries _ Hprog _ _ _ _ Hk' Hn)
    as [(d & -> & Hdn) | [(v & ->) | (s & -> & _)]]; try done.
  inv_bind H. injection H as <-.
  apply BoundColumn_new_Ok in Ha as (dom & _ & ->).
  exists d, dom. rewrite (class_attr_mro _ _ _ _ Hk), Hdn. done.
Qed.

(** In a program, a bound column read from attribute [n] of class [T] has
    [T] as its dataset and [n] as its name, however far up the hierarchy
    the column was declared. *)
Theorem access_binds_to_the_accessing_class (st : store) (fuel : nat)
    (T : type_id) (n : string) (b : BoundColumn) :
  program_store dm cc st ->
  getattr fuel st T n = Ok (OBound b) ->
  dataset b = T /\ name b = n.
Proof.
  intros Hprog H.
  destruct (program_getattr_bound _ _ _ _ _ Hprog H) as (d & dom & _ & _ & ->).
  split; reflexivity.
Qed.

(** In a program, two bound columns read from classes have the same
    identity key exactly when they were read from the same attribute of the
    same class: columns of a class and of its subclasses or siblings never
    alias. *)
Theorem identity_is_class_and_attribute (st : store) (f1 f2 : nat)
    (T1 T2 : type_id) (n1 n2 : string) (b1 b2 : BoundColumn) :
  program_store dm cc st ->
  getattr f1 st T1 n1 = Ok (OBound b1) ->
  getattr f2 st T2 n2 = Ok (OBound b2) ->
  identity b1 = identity b2 <-> T1 = T2 /\ n1 = n2.
Proof.
  intros Hprog H1 H2.
  destruct (program_getattr_bound _ _ _ _ _ Hprog H1)
    as (d1 & dom1 & _ & _ & Hb1).
  destruct (program_getattr_bound _ _ _ _ _ Hprog H2)
    as (d2 & dom2 & _ & _ & Hb2).
  split.
  - rewrite Hb1, Hb2. unfold identity, static_identity, dataset, name.
    simpl. intros H. injection H as _ _ _ HT Hn. by split.
  - intros [<- <-].
    pose proof (getattr_det _ _ _ _ _ _ _ H1 H2) as E. by injection E as <-.
Qed.

Lemma rmapM_Ok {A B : Type} (f : A -> result B) (l : list A) (r : list B) :
  rmapM f l = Ok r -> Forall2 (fun a b => f a = Ok b) l r.
Proof.
  revert r. induction l as [|a l IH]; intros r H.
  - injection H as <-. constructor.
  - rewrite rmapM_cons in H. inv_bind H. inv_bind H. injection H as <-.
    constructor; [done | by apply IH].
Qed.

(** In a program, whatever bound column [columns] of a class holds is bound
    to that very class and named after one of its field names: a class never
    hands out a column of its parent. *)
Theorem columns_are_owned_by_the_class (st : store) (fuel : nat)
    (T : type_id) (l : list pyobj) (b : BoundColumn) :
  program_store dm cc st ->
  getattr fuel st T "columns" = Ok (OFrozenset l) ->
  OBound b ∈ l ->
  dataset b = T /\ name b ∈ column_names st T.
Proof.
  intros Hprog H Hb. destruct fuel as [|fuel]; [done|].
  rewrite getattr_eq in H. destruct (st !! T) as [k|] eqn:Hk; [|done].
  destruct (cls_meta k && bool_decide ("columns" = "columns")).
  - unfold DataSetMeta_columns in H. inv_bind H. rename Ha into Hnames.
    destruct a as [v|c|d|s|b0|l0]; try done. inv_bind H. injection H as <-.
    apply rmapM_Ok in Ha.
    apply list_elem_of_lookup_1 in Hb as [i Hi].
    destruct (Forall2_lookup_r _ _ _ _ _ Ha Hi) as (n & Hn & Hget).
    destruct (program_getattr_bound _ _ _ _ _ Hprog Hget)
      as (d1 & dom1 & _ & _ & ->).
    split; [done|]. unfold name. simpl.
    apply list_elem_of_lookup_2, elem_of_elements in Hn.
    destruct fuel as [|fuel]; [done|].
    rewrite getattr_eq, Hk in Hnames.
    rewrite bool_decide_eq_false_2, andb_false_r in Hnames by done.
    unfold column_names. rewrite (class_attr_mro _ _ _ _ Hk).
    destruct (mro_lookup st (cls_mro k) "_column_names")
      as [[v|c|d0|s0|b0|l0]|]; try done.
    + by destruct (BoundColumnDescr_get (getattr fuel st) d0 T).
    + by injection Hnames as ->.
  - destruct (mro_lookup st (cls_mro k) "columns") as [o|] eqn:Ho; [|done].
    apply mro_lookup_Some in Ho as (c' & k' & _ & Hk' & Hn).
    destruct (program_entries _ Hprog _ _ _ _ Hk' Hn)
      as [(d & -> & Hdn) | [(v & ->) | (s & -> & _)]]; try done.
    by destruct (BoundColumnDescr_get (getattr fuel st) d T).
Qed.

(** ** Names and order *)

(** The qualified name does not identify a column: read from two different
    classes that carry the same [__name__], a field gives bound columns with
    the same qualified name and different identity keys. *)
Theorem qualname_does_not_identify (st : store) (f1 f2 : nat)
    (T1 T2 : type_id) (k1 k2 : pyclass) (n : string) (b1 b2 : BoundColumn) :
  program_store dm cc st ->
  st !! T1 = Some k1 -> st !! T2 = Some k2 ->
  T1 <> T2 -> cls_name k1 = cls_name k2 ->
  getattr f1 st T1 n = Ok (OBound b1) ->
  getattr f2 st T2 n = Ok (OBound b2) ->
  qualname st b1 = qualname st b2 /\ identity b1 <> identity b2.
Proof.
  intros Hprog Hk1 Hk2 Hne Hname H1 H2.
  destruct (program_getattr_bound _ _ _ _ _ Hprog H1)
    as (d1 & dom1 & _ & _ & ->).
  destruct (program_getattr_bound _ _ _ _ _ Hprog H2)
    as (d2 & dom2 & _ & _ & ->).
  split.
  - unfold qualname, dataset, name. simpl. by rewrite Hk1, Hk2, Hname.
  - unfold identity, static_identity, dataset. simpl. intros H.
    apply Hne. by injection H.
Qed.

(** With the interpreter giving different objects different [id]s, [<] is a
    strict total order on classes: no class is below itself, the relation
    is transitive, and of two different classes one is below the other. *)
Theorem lt_is_a_strict_total_order (id : nat -> Z) :
  (forall a b, id a = id b -> a = b) ->
  (forall a, DataSetMeta_lt id a a = false)
  /\ (forall a b c, DataSetMeta_lt id a b = true ->
                    DataSetMeta_lt id b c = true ->
                    DataSetMeta_lt id a c = true)
  /\ (forall a b, a <> b ->
                  DataSetMeta_lt id a b = negb (DataSetMeta_lt id b a)).
Proof.
  intros Hinj. unfold DataSetMeta_lt. split; [|split].
  - intros a. apply Z.ltb_irrefl.
  - intros a b c Hab Hbc. apply Z.ltb_lt in Hab, Hbc. apply Z.ltb_lt. lia.
  - intros a b Hne. assert (id a <> id b) by (intros E; by apply Hne, Hinj).
    destruct (Z.ltb_spec (id a) (id b)), (Z.ltb_spec (id b) (id a));
      simpl; try done; lia.
Qed.

End Properties.

(** * The theorems at work on the sample classes *)

Ltac run := vm_compute; reflexivity.

Ltac in_names :=
  apply elem_of_elements; vm_compute; apply list_elem_of_In; simpl; tauto.

Ltac schema :=
  eexists; split; [run|]; split;
  [ vm_compute; apply list_elem_of_In; simpl; tauto
  | intros ?; vm_compute; discriminate ].

Lemma store1_reachable : reachable sample_default sample_can_cast store1.
Proof. apply (reachable_module _ _ DataSet_id). run. Defined.

Lemma store2_reachable : reachable sample_default sample_can_cast store2.
Proof.
  apply (reachable_class _ _ store1 "PriceData" [DataSet_id] PriceData_dict
           PriceData_id); [apply store1_reachable | run].
Defined.

Lemma store3_reachable : reachable sample_default sample_can_cast store3.
Proof.
  apply (reachable_class _ _ store2 "Base" [DataSet_id] Base_dict Base_id);
    [apply store2_reachable | run].
Defined.

Lemma store4_reachable : reachable sample_default sample_can_cast store4.
Proof.
  apply (reachable_class _ _ store3 "Derived" [Base_id] Derived_dict
           Derived_id); [apply store3_reachable | run].
Defined.

Lemma C1_witness :
  (identity price_column = identity volume_column <->
   (dtype_of price_column, missing_value price_column,
    dataset price_column, name price_column)
   = (dtype_of volume_column, missing_value volume_column,
      dataset volume_column, name volume_column))
  /\ (dataset price_column = dataset volume_column ->
      domain price_column = domain volume_column).
Proof.
  destruct (C1_identity_is_the_tuple sample_default sample_can_cast store2
              [class_of store3 Base_id] 1 1 float64_dtype int64_dtype VNaN
              (VInt 0) PriceData_id PriceData_id "price" "volume"
              price_column volume_column) as (H1 & H2 & _).
  - apply store2_reachable.
  - run.
  - run.
  - split; [exact H1 | exact H2].
Defined.

Lemma C2_witness :
  sample_can_cast VNaN float64_dtype = true
  /\ exists descr b,
      bind sample_default sample_can_cast
        (mkColumn float64_dtype (Given VNaN)) "price" = Ok descr
      /\ (forall fuel,
            BoundColumnDescr_get (getattr (S fuel) store2) descr PriceData_id
            = Ok b)
      /\ dtype_of b = float64_dtype /\ missing_value b = VNaN
      /\ dataset b = PriceData_id /\ name b = "price".
Proof.
  split; [run|].
  apply (C2_bind_then_resolve sample_default sample_can_cast float64_dtype
           VNaN "price" store2 PriceData_id);
    [run | apply store2_reachable | schema].
Defined.

Lemma C3_witness :
  sample_default int64_dtype = None
  /\ exists msg,
      bind sample_default sample_can_cast
        (mkColumn int64_dtype NotSpecified) "volume"
      = Raise (NoDefaultMissingValue msg)
      /\ contains "volume" msg /\ contains (dtype_name int64_dtype) msg.
Proof.
  split; [run|].
  refine (proj1 (C3_no_default_missing_value sample_default sample_can_cast
                   int64_dtype "volume" _)); run.
Defined.

Lemma C4_witness :
  BoundColumnDescr_get (getattr 1 store2) price_descr PriceData_id
  = Ok price_column
  /\ forall f2 b2,
      BoundColumnDescr_get (getattr f2 store2) price_descr PriceData_id
      = Ok b2 ->
      identity price_column = identity b2.
Proof.
  split; [run|].
  refine (proj2 (C4_resolve_is_idempotent store2 price_descr PriceData_id 1
                   price_column _)); run.
Defined.

Lemma C8_witness :
  BoundColumnDescr_get (getattr 1 store2) price_descr PriceData_id
  = Ok price_column
  /\ qualname store2 price_column = Ok "PriceData.price"
  /\ repr store2 price_column = Ok "PriceData.price::float64".
Proof.
  split; [run|].
  destruct (C8_qualname_and_repr store2 1 price_descr PriceData_id
              price_column) as (k & Hk & Hq & Hr); [run|].
  vm_compute in Hk. injection Hk as <-. split; [exact Hq | exact Hr].
Defined.

Lemma store5_reachable : reachable sample_default sample_can_cast store5.
Proof.
  apply (reachable_class _ _ store4 "Shadow" [Base_id] Shadow_dict
           Shadow_id); [apply store4_reachable | run].
Defined.

Lemma store6_reachable : reachable sample_default sample_can_cast store6.
Proof.
  apply (reachable_class _ _ store5 "X" [object_id] X_dict X_id);
    [apply store5_reachable | run].
Defined.

Lemma store7_reachable : reachable sample_default sample_can_cast store7.
Proof.
  apply (reachable_class _ _ store6 "Dom" [DataSet_id] Dom_dict Dom_id);
    [apply store6_reachable | run].
Defined.

Lemma C5_witness :
  exists bB bD,
    getattr 2 store4 Base_id "a" = Ok (OBound bB)
    /\ getattr 2 store4 Derived_id "a" = Ok (OBound bD)
    /\ dataset bB = Base_id /\ dataset bD = Derived_id
    /\ identity bB <> identity bD.
Proof.
  destruct (C5_owner_sensitivity sample_default sample_can_cast store4
              Base_id Derived_id (class_of store4 Base_id)
              (class_of store4 Derived_id) "a" a_descr [Derived_id]
              [DataSet_id; object_id])
    as (bB & bD & Hget & HB & HD & Hne).
  - apply store4_reachable.
  - schema.
  - schema.
  - in_names.
  - run.
  - run.
  - run.
  - discriminate.
  - run.
  - intros c k Hc Hk. apply list_elem_of_singleton in Hc as ->.
    vm_compute in Hk. injection Hk as <-. run.
  - exists bB, bD. destruct (Hget 0) as (H1 & H2 & _).
    repeat split; assumption.
Defined.

Lemma C9_witness :
  exists dom,
    forall fuel,
      BoundColumnDescr_get (getattr (S fuel) store2) price_descr PriceData_id
      = Ok (mkBound (mkTerm dom float64_dtype VNaN) PriceData_id "price").
Proof.
  destruct (C9_resolve_raises_nothing sample_default sample_can_cast store2
              PriceData_id price_descr) as (dom & H & _).
  - apply store2_reachable.
  - schema.
  - exists dom. exact H.
Defined.

Lemma C10_witness :
  (forall fuel b,
      getattr fuel store4 Derived_id "a" = Ok (OBound b) ->
      domain b = OVal VNone)
  /\ exists b, forall fuel,
       getattr (S (S fuel)) store4 Derived_id "a" = Ok (OBound b).
Proof.
  destruct (C10_domain_of_the_owner sample_default sample_can_cast store4
              Derived_id (class_of store4 Derived_id) "a" a_descr)
    as [_ H].
  - apply store4_reachable.
  - run.
  - in_names.
  - run.
  - destruct (H [Derived_id; Base_id] [object_id]) as [H1 H2]; [run| |].
    + intros c kc Hc Hk.
      apply elem_of_cons in Hc as [-> | Hc];
        [|apply list_elem_of_singleton in Hc as ->];
        vm_compute in Hk; injection Hk as <-; run.
    + split; [exact H1 | exact H2].
Defined.

Lemma C6_witness :
  (forall n,
      n ∈ column_names store4 Derived_id <->
      declared Derived_dict n
      \/ exists a, ancestor store4 Derived_id a /\ n ∈ column_names store4 a)
  /\ exists l : list BoundColumn,
      getattr 3 store4 Derived_id "columns" = Ok (OFrozenset (OBound <$> l))
      /\ name <$> l = elements (column_names store4 Derived_id)
      /\ Forall (fun b => dataset b = Derived_id) l
      /\ NoDup l /\ length l = 3.
Proof.
  destruct (C6_field_names_and_columns sample_default sample_can_cast store3
              "Derived" [Base_id] Derived_dict Derived_id store4)
    as [Hn Hc].
  - apply store3_reachable.
  - run.
  - split; [exact Hn|].
    destruct Hc as (l & Hget & Hnames & Hown & Hnd & Hlen).
    + schema.
    + intros n Hin. apply elem_of_elements in Hin. vm_compute in Hin.
      repeat (apply elem_of_cons in Hin as [-> | Hin]);
        [..|by apply elem_of_nil in Hin]; (eexists; split; run).
    + exists l. split; [exact (Hget 0)|]. split; [exact Hnames|].
      split; [exact Hown|]. split; [exact Hnd|]. rewrite Hlen. run.
Defined.

(** [Shadow] inherits the field names [a] and [b] of [Base] and sets the
    plain attribute [a = 5]: its columns hold the number, not a bound
    column for [a]. *)
Lemma C6_counterexample :
  reachable sample_default sample_can_cast store5
  /\ elements (column_names store5 Shadow_id) = ["a"; "b"]
  /\ schema_type store5 Shadow_id
  /\ forall fuel, ~ exists l : list BoundColumn,
       getattr fuel store5 Shadow_id "columns"
       = Ok (OFrozenset (OBound <$> l)).
Proof.
  split; [apply store5_reachable|]. split; [run|]. split; [schema|].
  intros fuel (l & H).
  assert (H3 : getattr 3 store5 Shadow_id "columns"
               = Ok (OFrozenset
                       [OVal (VInt 5);
                        OBound (mkBound
                                  (mkTerm (OVal VNone) int64_dtype
                                     (VInt (-1))) Shadow_id "b")])) by run.
  pose proof (getattr_det _ _ _ _ _ _ _ H H3) as E.
  injection E as E. destruct l as [|b l]; discriminate.
Qed.

Lemma C7_witness :
  exists Derived st' b bB,
    new_class store4 "Redeclared" [Base_id] Redeclared_dict
    = Ok (Derived, st')
    /\ getattr 2 st' Derived "a" = Ok (OBound b)
    /\ dtype_of b = int64_dtype
    /\ getattr 2 st' Base_id "a" = Ok (OBound bB)
    /\ dtype_of bB = float64_dtype.
Proof.
  destruct (C7_redeclared_field_shadows sample_default sample_can_cast
              store4 "Redeclared" [Base_id] Redeclared_dict Base_id "a"
              (mkColumn int64_dtype (Given (VInt 0))))
    as (D & st' & Hnew & _ & Hacc).
  - apply store4_reachable.
  - apply list_elem_of_singleton. reflexivity.
  - in_names.
  - discriminate.
  - run.
  - apply type_new_one_base;
      [apply (reachable_wf _ _ _ store4_reachable) | eexists; run].
  - intros n c' H. unfold Redeclared_dict in H.
    apply lookup_singleton_Some in H as [<- [= <-]].
    split; [discriminate | run].
  - assert (E : DataSetMeta_new sample_default sample_can_cast store4
                  "Redeclared" [Base_id] Redeclared_dict
                = Ok (Redeclared_id, store4r)) by run.
    rewrite E in Hnew.
    assert (HD : D = Redeclared_id) by congruence.
    assert (Hst : st' = store4r) by congruence.
    subst D st'.
    destruct Hacc as (b & Hd & _ & _ & Hget); [schema|].
    exists Redeclared_id, store4r, b,
      (mkBound (mkTerm (OVal VNone) float64_dtype VNaN) Base_id "a").
    split; [exact E|]. split; [exact (Hget 0)|].
    split; [exact Hd|]. split; run.
Defined.

(** [X] is made by the metaclass from [object] alone and has no [domain]:
    resolving its valid column [v] raises [AttributeError].  [Dom] derives
    from [DataSet] and declares a column called [domain]: accessing it never
    yields a value, since building the column asks for [Dom.domain] again. *)
Lemma C9_counterexample :
  reachable sample_default sample_can_cast store7
  /\ bind sample_default sample_can_cast
    (mkColumn float64_dtype NotSpecified) "v"
  = Ok (mkDescr float64_dtype VNaN "v")
  /\ class_attr store7 X_id "v" = Some (ODescr (mkDescr float64_dtype VNaN "v"))
  /\ (forall fuel,
        BoundColumnDescr_get (getattr (S fuel) store7)
          (mkDescr float64_dtype VNaN "v") X_id
        = Raise (no_attribute "X" "domain"))
  /\ (forall fuel,
        getattr (S (S fuel)) store7 X_id "v"
        = Raise (no_attribute "X" "domain"))
  /\ class_attr store7 Dom_id "domain"
     = Some (ODescr (mkDescr float64_dtype VNaN "domain"))
  /\ (forall fuel o, getattr fuel store7 Dom_id "domain" <> Ok o).
Proof.
  split; [apply store7_reachable|]. split; [run|]. split; [run|].
  split; [intros fuel; run|]. split; [intros fuel; run|]. split; [run|].
  induction fuel as [|fuel IH]; intros o H; [discriminate|].
  assert (Hk : store7 !! Dom_id = Some (class_of store7 Dom_id)) by run.
  assert (Hl : mro_lookup store7 (cls_mro (class_of store7 Dom_id)) "domain"
               = Some (ODescr (mkDescr float64_dtype VNaN "domain")))
    by run.
  rewrite getattr_eq, Hk in H.
  rewrite bool_decide_eq_false_2, andb_false_r, Hl in H by discriminate.
  inv_bind H. apply BoundColumn_new_Ok in Ha as (dom & Hdom & _).
  by apply (IH dom).
Qed.

(** ** The sample classes as a program *)

Ltac simple_dict H :=
  repeat (apply lookup_insert_Some in H as [[_ <-] | [_ H]]; [eauto|]);
  apply lookup_singleton_Some in H as [_ <-]; eauto.

Lemma PriceData_simple : simple_body PriceData_dict.
Proof. intros n o H. unfold PriceData_dict in H. simple_dict H. Defined.

Lemma Base_simple : simple_body Base_dict.
Proof. intros n o H. unfold Base_dict in H. simple_dict H. Defined.

Lemma Derived_simple : simple_body Derived_dict.
Proof. intros n o H. unfold Derived_dict in H. simple_dict H. Defined.

Lemma store1_program : program_store sample_default sample_can_cast store1.
Proof. apply (program_module _ _ DataSet_id). run. Defined.

Lemma store2_program : program_store sample_default sample_can_cast store2.
Proof.
  apply (program_class _ _ store1 "PriceData" [DataSet_id] PriceData_dict
           PriceData_id); [apply store1_program | apply PriceData_simple | run].
Defined.

Lemma store2b_program : program_store sample_default sample_can_cast store2b.
Proof.
  apply (program_class _ _ store2 "PriceData" [DataSet_id] PriceData_dict
           PriceData2_id);
    [apply store2_program | apply PriceData_simple | run].
Defined.

Lemma store3_program : program_store sample_default sample_can_cast store3.
Proof.
  apply (program_class _ _ store2 "Base" [DataSet_id] Base_dict Base_id);
    [apply store2_program | apply Base_simple | run].
Defined.

Lemma store4_program : program_store sample_default sample_can_cast store4.
Proof.
  apply (program_class _ _ store3 "Derived" [Base_id] Derived_dict
           Derived_id); [apply store3_program | apply Derived_simple | run].
Defined.

Lemma definition_error_names_a_field_witness :
  new_class store1 "Bad" [DataSet_id] Bad_dict
  = Raise (NoDefaultMissingValue
             (no_missing_value_message int64_dtype "volume"))
  /\ exists n c,
      Bad_dict !! n = Some (OColumn c)
      /\ col_missing_value c = NotSpecified
      /\ sample_default (col_dtype c) = None
      /\ no_missing_value_message int64_dtype "volume"
         = no_missing_value_message (col_dtype c) n
      /\ contains n (no_missing_value_message int64_dtype "volume")
      /\ contains (dtype_name (col_dtype c))
           (no_missing_value_message int64_dtype "volume").
Proof.
  split; [run|].
  apply (definition_error_names_a_field sample_default sample_can_cast
           store1 "Bad" [DataSet_id] Bad_dict). run.
Defined.


Lemma definition_keeps_existing_classes_witness :
  store2 !! Base_id = None
  /\ forall c, c < length store2 ->
       store3 !! c = store2 !! c
       /\ forall fuel n, getattr fuel store3 c n = getattr fuel store2 c n.
Proof.
  apply (definition_keeps_existing_classes sample_default sample_can_cast
           store2 "Base" [DataSet_id] Base_dict Base_id store3);
    [apply store2_reachable | run].
Defined.

Lemma definition_binds_every_column_witness :
  exists k,
    store3 !! Base_id = Some k /\ cls_name k = "Base"
    /\ (forall n c, Base_dict !! n = Some (OColumn c) ->
          exists descr,
            bind sample_default sample_can_cast c n = Ok descr
            /\ descr_name descr = n /\ descr_dtype descr = col_dtype c
            /\ (n <> "_column_names" ->
                cls_dict k !! n = Some (ODescr descr)))
    /\ (forall n, n <> "_column_names" ->
          (forall c, Base_dict !! n <> Some (OColumn c)) ->
          cls_dict k !! n = Base_dict !! n)
    /\ cls_dict k !! "_column_names"
       = Some (ONames (column_names store3 Base_id))
    /\ (forall n c, cls_dict k !! n <> Some (OColumn c)).
Proof.
  apply (definition_binds_every_column sample_default sample_can_cast
           store2 "Base" [DataSet_id] Base_dict Base_id store3);
    [apply store2_reachable | run].
Defined.

Lemma access_never_yields_a_Column_witness :
  getattr 2 store3 Base_id "a"
  <> Ok (OColumn (mkColumn float64_dtype NotSpecified)).
Proof.
  apply (access_never_yields_a_Column sample_default sample_can_cast).
  apply store3_reachable.
Defined.


Lemma access_binds_to_the_accessing_class_witness :
  getattr 2 store4 Derived_id "a" = Ok (OBound Derived_a)
  /\ dataset Derived_a = Derived_id /\ name Derived_a = "a".
Proof.
  split; [run|].
  apply (access_binds_to_the_accessing_class sample_default sample_can_cast
           store4 2 Derived_id "a" Derived_a); [apply store4_program | run].
Defined.

Lemma identity_is_class_and_attribute_witness :
  identity Base_a = identity Derived_a <->
  Base_id = Derived_id /\ "a" = "a".
Proof.
  apply (identity_is_class_and_attribute sample_default sample_can_cast
           store4 2 2 Base_id Derived_id "a" "a" Base_a Derived_a);
    [apply store4_program | run | run].
Defined.

Lemma columns_are_owned_by_the_class_witness :
  getattr 3 store4 Derived_id "columns" = Ok (OFrozenset Derived_columns)
  /\ OBound Derived_a ∈ Derived_columns
  /\ dataset Derived_a = Derived_id
  /\ name Derived_a ∈ column_names store4 Derived_id.
Proof.
  assert (Hin : OBound Derived_a ∈ Derived_columns).
  { vm_compute. apply list_elem_of_In.
    repeat first [left; reflexivity | right]. }
  split; [run|]. split; [exact Hin|].
  apply (columns_are_owned_by_the_class sample_default sample_can_cast
           store4 3 Derived_id Derived_columns Derived_a);
    [apply store4_program | run | exact Hin].
Defined.

Lemma qualname_does_not_identify_witness :
  qualname store2b price_column
  = qualname store2b
      (mkBound (mkTerm (OVal VNone) float64_dtype VNaN) PriceData2_id "price")
  /\ identity price_column
     <> identity (mkBound (mkTerm (OVal VNone) float64_dtype VNaN)
                    PriceData2_id "price").
Proof.
  apply (qualname_does_not_identify sample_default sample_can_cast store2b
           2 2 PriceData_id PriceData2_id (class_of store2b PriceData_id)
           (class_of store2b PriceData2_id) "price");
    [apply store2b_program | run | run | discriminate | run | run | run].
Defined.

Lemma lt_is_a_strict_total_order_witness :
  DataSetMeta_lt Z.of_nat Base_id Derived_id
  = negb (DataSetMeta_lt Z.of_nat Derived_id Base_id).
Proof.
  destruct (lt_is_a_strict_total_order Z.of_nat) as (_ & _ & H).
  - intros a b. apply Nat2Z.inj.
  - apply H. discriminate.
Defined.
